(** * image_download/make_examples.py: coverage indexer and example extractor

    A shallow embedding of the two functions of the script,
    [make_polygon_list] and [make_examples], and the properties of
    them that the specification states.

    Conventions of the embedding:
    - Python [int] is [Z]; [//] on a positive divisor is [Z.div] (both
      round towards minus infinity), and [-width//2] parses as
      [(-width)//2].
    - NumPy/GDAL/GeoPandas/Shapely are outside the repository.  What
      the script needs from floating point and from the geometry
      kernel is gathered in the class [Geo]; files and rasters are an
      explicit environment [Env]; the files written by the script are
      a finite map from path to content.
    - an uncaught Python exception is the outcome [Raised].
    - [np.random.randint] is a function of an explicit entropy value,
      so that "possible outcome" means "outcome for some entropy". *)

From stdpp Require Import gmap strings list pretty.
From Stdlib Require Import ZArith QArith Qround Lia.

Local Open Scope Z_scope.

(** ** Strings and paths *)

(** [s.endswith(suffix)] *)
Definition endswith (s suffix : string) : bool :=
  let n := String.length s in
  let m := String.length suffix in
  (m <=? n)%nat && String.eqb (String.substring (n - m) m s) suffix.

(** [s.startswith(prefix)] *)
Definition startswith (s pre : string) : bool := String.prefix pre s.

(** [os.path.join(a, b)] on POSIX: an absolute [b] replaces [a]; a
    separator is inserted unless [a] is empty or already ends in one. *)
Definition path_join (a b : string) : string :=
  if startswith b "/" then b
  else if String.eqb a "" || endswith a "/" then a +:+ b
  else a +:+ "/" +:+ b.

(** ** Geometry and floating point, as far as the script uses them *)

Class Geo (F : Type) := {
  fadd : F -> F -> F;
  fsub : F -> F -> F;
  fmul : F -> F -> F;
  fdiv : F -> F -> F;
  (** an integer as a float (exact for the magnitudes of pixel indices) *)
  of_int : Z -> F;
  (** [np.around] followed by [int(...)]: [None] when the value is not
      finite, in which case [int] raises *)
  around : F -> option Z;
  (** the predicate of [gpd.sjoin] (default: intersects) between a
      point and a polygon given by its ring *)
  intersects : F * F -> list (F * F) -> bool
}.

Section Model.

Context {F : Type} `{Geo F}.

Definition Point : Type := F * F.

(** [shapely.geometry.Polygon(ring)]: the exterior ring in the order
    the points were given. *)
Definition Polygon : Type := list Point.

(** A GeoDataFrame: its rows in index order and its coordinate
    reference system (an EPSG code), if any. *)
Record GeoDataFrame (Row : Type) := mkFrame {
  rows : list Row;
  crs : option Z
}.
Arguments mkFrame {Row} _ _.
Arguments rows {Row} _.
Arguments crs {Row} _.

(** [gpd.GeoDataFrame({...: []})] *)
Definition empty_frame {Row} : GeoDataFrame Row := mkFrame [] None.

(** [df.append(row, ignore_index=True)]: the row goes last. *)
Definition append {Row} (df : GeoDataFrame Row) (r : Row) : GeoDataFrame Row :=
  mkFrame (rows df ++ [r]) (crs df).

(** [df.set_crs(epsg=e)]: raises when the frame already has a
    different reference system ([allow_override] is not given). *)
Definition set_crs {Row} (df : GeoDataFrame Row) (e : Z) : option (GeoDataFrame Row) :=
  match crs df with
  | None => Some (mkFrame (rows df) (Some e))
  | Some e' => if Z.eqb e' e then Some df else None
  end.

(** ** Rasters *)

Record Corners := mkCorners {
  upperLeft : Point;
  upperRight : Point;
  lowerRight : Point;
  lowerLeft : Point
}.

(** One band's pixel block, row by row. *)
Definition Block : Type := list (list Z).

(** What [gdal.Open] and [gdal.Info(..., format="json")] give for a
    tile.  [ReadAsArray band x y w h] is [None] when the read fails
    (for instance when the window leaves the raster). *)
Record Raster := mkRaster {
  cornerCoordinates : Corners;
  geoTransform : list F;
  ReadAsArray : nat -> Z -> Z -> Z -> Z -> option Block
}.

Record CoverageRow := mkCoverageRow {
  cov_filename : string;
  cov_geometry : Polygon
}.

Record AssetRow := mkAssetRow {
  asset_id : Z;
  asset_geometry : Point
}.

Record ExampleRow := mkExampleRow {
  filename : string;
  ul_x : Z;
  ul_y : Z;
  lr_x : Z;
  lr_y : Z;
  geometry : Polygon
}.

(** Contents of the files the script writes. *)
Inductive File :=
| PngFile (r g b : Block)
| GeoJsonFile (d : GeoDataFrame ExampleRow).

(** The part of the world the script reads. *)
Record Env := mkEnv {
  listdir : string -> option (list string);
  gdal : string -> option Raster;
  read_coverage : string -> option (GeoDataFrame CoverageRow);
  read_assets : string -> option (GeoDataFrame AssetRow);
  (** [os.path.abspath("")] *)
  cwd : string
}.

(** ** make_polygon_list *)

(** Lines 34-39: the [.tif] entries of the directory, joined to it. *)
Definition tif_files (path : string) (entries : list string) : list string :=
  map (path_join path) (filter (fun f => endswith f ".tif" = true) entries).

(** Lines 42-46: the bare [except] also covers [resume_file=None]. *)
Definition load_coverage (env : Env) (resume_file : option string)
  : GeoDataFrame CoverageRow :=
  match resume_file with
  | None => empty_frame
  | Some f => match read_coverage env f with
              | Some c => c
              | None => empty_frame
              end
  end.

(** Lines 52-57. *)
Definition corner_polygon (c : Corners) : Polygon :=
  [upperLeft c; upperRight c; lowerRight c; lowerLeft c].

(** Lines 49-58; [None] is the uncaught failure of [gdal.Info]. *)
Fixpoint add_tiles (env : Env) (files : list string)
  (coverage : GeoDataFrame CoverageRow) : option (GeoDataFrame CoverageRow) :=
  match files with
  | [] => Some coverage
  | file :: rest =>
      match gdal env file with
      | None => None
      | Some info =>
          let poly := corner_polygon (cornerCoordinates info) in
          add_tiles env rest (append coverage (mkCoverageRow file poly))
      end
  end.

Definition make_polygon_list (env : Env) (path : string)
  (resume_file : option string) : option (GeoDataFrame CoverageRow) :=
  match listdir env path with
  | None => None
  | Some entries =>
      let tifs := tif_files path entries in
      let coverage := load_coverage env resume_file in
      match add_tiles env tifs coverage with
      | None => None
      | Some coverage => set_crs coverage 4326
      end
  end.

(** The record the indexer makes for a tile whose metadata is [info]. *)
Definition tile_record (file : string) (info : Raster) : CoverageRow :=
  mkCoverageRow file (corner_polygon (cornerCoordinates info)).

(** How many records of an index carry a given file name. *)
Definition occurrences (file : string) (l : list CoverageRow) : nat :=
  length (filter (fun r => cov_filename r = file) l).

(** ** make_examples *)

(** [np.random.randint(low, high)]: a uniform draw from the integers
    [low <= n < high] ([high] is excluded); raises [ValueError] when
    [low >= high].  [u] is the entropy the generator consumes. *)
Definition randint (low high : Z) (u : Z) : option Z :=
  if low <? high then Some (low + u mod (high - low)) else None.

(** Lines 144-145: [np.random.randint(-size//2 + 8, size//2 - 8)]. *)
Definition draw_offset (size : Z) (u : Z) : option Z :=
  randint ((- size) / 2 + 8) (size / 2 - 8) u.

(** Lines 140, 147-148: the upper-left pixel of the crop window, from
    the asset's pixel and the offset. *)
Definition crop_origin (pixel size offset : Z) : Z :=
  pixel - size / 2 - offset.

(** Lines 175-183: [(ul_x, ul_y, lr_x, lr_y)]. *)
Definition tower_height : Z := 25.
Definition tower_width : Z := 30.

Definition bbox (width height : Z) (offset : Z * Z) : Z * Z * Z * Z :=
  let ul := (width / 2 + offset.1, height / 2 + offset.2) in
  (ul.1 - tower_width / 2,
   ul.2 - tower_height / 2,
   ul.1 + tower_width / 2,
   ul.2 + tower_height / 2).

(** Lines 166-172: the footprint of the crop. *)
Definition img_polygon (upper_left pixel_size : Point) (x y width height : Z)
  : Polygon :=
  let corner := (fadd upper_left.1 (fmul (of_int x) pixel_size.1),
                 fadd upper_left.2 (fmul (of_int y) pixel_size.2)) in
  let shifted (dx dy : Z) :=
    (fadd corner.1 (fmul pixel_size.1 (of_int dx)),
     fadd corner.2 (fmul pixel_size.2 (of_int dy))) in
  [corner; shifted width 0; shifted width height; shifted 0 height].

(** Lines 155-159: the three band reads inside [try]; [None] when any
    of them (or the assignment of its result) fails. *)
Definition read_bands (ds : Raster) (x y width height : Z)
  : option (Block * Block * Block) :=
  match ReadAsArray ds 1 x y width height with
  | None => None
  | Some r =>
      match ReadAsArray ds 2 x y width height with
      | None => None
      | Some g =>
          match ReadAsArray ds 3 x y width height with
          | None => None
          | Some b => Some (r, g, b)
          end
      end
  end.

(** A row of [gpd.sjoin(assets, coverage, how="inner")]: the asset's
    columns and the [filename] column of the tile it falls in. *)
Record JoinedRow := mkJoinedRow {
  j_asset : AssetRow;
  j_filename : string
}.

(** Line 117: one row per (asset, tile) pair that intersects. *)
Definition sjoin (assets : list AssetRow) (coverage : list CoverageRow)
  : list JoinedRow :=
  flat_map (fun a =>
    map (fun c => mkJoinedRow a (cov_filename c))
        (filter (fun c => intersects (asset_geometry a) (cov_geometry c) = true)
                coverage))
    assets.

(** What a Python call hands back. *)
Inductive PyValue :=
| PyNone
| PyFrame (d : GeoDataFrame ExampleRow).

(** How a loop body ends: fall through to the next iteration, [return]
    from the function, or an uncaught exception. *)
Inductive Flow :=
| Next
| Return (v : PyValue)
| Raise.

Inductive Outcome :=
| Returned (v : PyValue)
| Raised.

(** The mutable state of a run: the growing dataset, the files written
    so far, and the number of random draws consumed. *)
Record State := mkState {
  dataset : GeoDataFrame ExampleRow;
  files : gmap string File;
  draws : nat
}.

Definition checkpoint_path (img_path : string) : string :=
  img_path +:+ "tower_examples.geojson".

Definition png_path (img_path name : string) : string :=
  img_path +:+ name +:+ ".png".

(** Lines 194-204, after the append: the periodic write and the early
    stop. *)
Definition save_results (img_path : string) (max_length : option Z)
  (ds : GeoDataFrame ExampleRow) (fs : gmap string File) (n : nat)
  : State * Flow :=
  let len := Z.of_nat (length (rows ds)) in
  let periodic :=
    if len mod 50 =? 0 then
      match set_crs ds 4326 with
      | None => None
      | Some ds' =>
          Some (ds', <[checkpoint_path img_path := GeoJsonFile ds']> fs)
      end
    else Some (ds, fs) in
  match periodic with
  | None => (mkState ds fs n, Raise)
  | Some (ds, fs) =>
      if decide (max_length = Some len) then
        (mkState ds (<[checkpoint_path img_path := GeoJsonFile ds]> fs) n,
         Return PyNone)
      else (mkState ds fs n, Next)
  end.

(** Lines 136-204: the body of the inner loop for one asset. *)
Definition process_asset (upper_left pixel_size : Point) (ds : Raster)
  (img_path : string) (max_length : option Z) (height width : Z)
  (entropy : nat -> Z) (row : JoinedRow) (st : State) : State * Flow :=
  let p := asset_geometry (j_asset row) in
  let pixels :=
    (around (fdiv (fsub p.1 upper_left.1) pixel_size.1),
     around (fdiv (fsub p.2 upper_left.2) pixel_size.2)) in
  match draw_offset width (entropy (draws st)) with
  | None => (st, Raise)
  | Some ox =>
      match draw_offset height (entropy (S (draws st))) with
      | None => (mkState (dataset st) (files st) (S (draws st)), Raise)
      | Some oy =>
          let n := S (S (draws st)) in
          match pixels with
          | (Some px, Some py) =>
              let x := crop_origin px width ox in
              let y := crop_origin py height oy in
              let name := pretty (asset_id (j_asset row)) in
              match read_bands ds x y width height with
              | None => (mkState (dataset st) (files st) n, Next)
              | Some (r, g, b) =>
                  let fs := <[png_path img_path name := PngFile r g b]> (files st) in
                  let poly := img_polygon upper_left pixel_size x y width height in
                  let '(bx0, by0, bx1, by1) := bbox width height (ox, oy) in
                  let ds' := append (dataset st)
                               (mkExampleRow name bx0 by0 bx1 by1 poly) in
                  save_results img_path max_length ds' fs n
              end
          | _ => (mkState (dataset st) (files st) n, Raise)
          end
      end
  end.

(** Line 134: the inner loop. *)
Fixpoint asset_loop (upper_left pixel_size : Point) (ds : Raster)
  (img_path : string) (max_length : option Z) (height width : Z)
  (entropy : nat -> Z) (rs : list JoinedRow) (st : State) : State * Flow :=
  match rs with
  | [] => (st, Next)
  | row :: rest =>
      match process_asset upper_left pixel_size ds img_path max_length
              height width entropy row st with
      | (st', Next) =>
          asset_loop upper_left pixel_size ds img_path max_length
            height width entropy rest st'
      | stop => stop
      end
  end.

(** Lines 121-134: the outer loop over the tiles of the coverage. *)
Fixpoint image_loop (env : Env) (joined : list JoinedRow)
  (img_path : string) (max_length : option Z) (height width : Z)
  (entropy : nat -> Z) (images : list string) (st : State) : State * Flow :=
  match images with
  | [] => (st, Next)
  | image :: rest =>
      match gdal env image with
      | None => (st, Raise)
      | Some ds =>
          let transform := geoTransform ds in
          match transform !! 0%nat, transform !! 3%nat,
                transform !! 1%nat, transform !! 5%nat with
          | Some t0, Some t3, Some t1, Some t5 =>
              let mine := filter (fun r => j_filename r = image) joined in
              match asset_loop (t0, t3) (t1, t5) ds img_path max_length
                      height width entropy mine st with
              | (st', Next) =>
                  image_loop env joined img_path max_length height width
                    entropy rest st'
              | stop => stop
              end
          | _, _, _, _ => (st, Raise)
          end
      end
  end.

(** An argument that is either a path or the frame itself. *)
Inductive Source (A : Type) :=
| Path (p : string)
| Frame (d : A).
Arguments Path {A} _.
Arguments Frame {A} _.

Definition resolve {A} (read : string -> option A) (s : Source A) : option A :=
  match s with
  | Path p => read p
  | Frame d => Some d
  end.

Definition initial_state (fs : gmap string File) : State :=
  mkState empty_frame fs 0.

(** How the call ends: a [return] hands back its value, falling off
    the end of the body hands back [None]. *)
Definition finish (flow : Flow) : Outcome :=
  match flow with
  | Next => Returned PyNone
  | Return v => Returned v
  | Raise => Raised
  end.

(** Lines 67-204.  [fs] is the content of the output directory before
    the run; the result is the state the run leaves and what the call
    returns. *)
Definition make_examples (env : Env)
  (assets : Source (GeoDataFrame AssetRow))
  (coverage : Source (GeoDataFrame CoverageRow))
  (img_path : string) (max_length : option Z) (height width : Z)
  (entropy : nat -> Z) (fs : gmap string File) : State * Outcome :=
  let img_path := cwd env +:+ img_path in
  match resolve (read_assets env) assets, resolve (read_coverage env) coverage with
  | Some assets, Some coverage =>
      let joined := sjoin (rows assets) (rows coverage) in
      let '(st, flow) :=
        image_loop env joined img_path max_length height width entropy
          (map cov_filename (rows coverage)) (initial_state fs) in
      (st, finish flow)
  | _, _ => (initial_state fs, Raised)
  end.

End Model.

Arguments mkFrame {Row} _ _.
Arguments rows {Row} _.
Arguments crs {Row} _.
Arguments Path {A} _.
Arguments Frame {A} _.

(** ** The claims of the specification as predicates *)

(** "Exactly one record per [.tif] file of the directory". *)
Definition one_record_per_tif {F} (env : Env (F:=F)) (path : string)
  (idx : GeoDataFrame (CoverageRow (F:=F))) : Prop :=
  forall entries f,
    listdir env path = Some entries ->
    f ∈ entries -> endswith f ".tif" = true ->
    occurrences (path_join path f) (rows idx) = 1%nat.

(** "Each tile file name appears at most once". *)
Definition no_repeated_tile {F} (idx : GeoDataFrame (CoverageRow (F:=F))) : Prop :=
  NoDup (map cov_filename (rows idx)).

(** The offsets [np.random.randint(-size//2 + 8, size//2 - 8)] can
    give. *)
Definition admissible (size o : Z) : Prop :=
  (- size) / 2 + 8 <= o < size / 2 - 8.

(** A record whose bounding box comes from admissible offsets. *)
Definition produced {F} (width height : Z) (r : ExampleRow (F:=F)) : Prop :=
  exists ox oy,
    admissible width ox /\ admissible height oy /\
    (ul_x r, ul_y r, lr_x r, lr_y r) = bbox width height (ox, oy).

(** What the checkpoint file holds while the cap has not been hit:
    what was there before the run until 50 records exist, and after
    that the records up to the last multiple of 50. *)
Definition checkpoint_expected {F} (fs0 : gmap string (File (F:=F)))
  (img_path : string) (ds : GeoDataFrame (ExampleRow (F:=F)))
  : option (File (F:=F)) :=
  let n := Z.of_nat (length (rows ds)) in
  if n <? 50 then fs0 !! checkpoint_path img_path
  else Some (GeoJsonFile
               (mkFrame (take (Z.to_nat (50 * (n / 50))) (rows ds)) (Some 4326))).

(** The invariant of the two loops of [make_examples]. *)
Record run_inv {F} (fs0 : gmap string (File (F:=F))) (img_path : string)
  (max_length : option Z) (height width : Z)
  (st : State (F:=F)) (flow : Flow (F:=F)) : Prop := mkRunInv {
  inv_rows : Forall (produced width height) (rows (dataset st));
  inv_crs : crs (dataset st) = None \/ crs (dataset st) = Some 4326;
  inv_tag :
    rows (dataset st) <> [] ->
    Z.of_nat (length (rows (dataset st))) mod 50 = 0 ->
    crs (dataset st) = Some 4326;
  inv_flow :
    let n := Z.of_nat (length (rows (dataset st))) in
    match flow with
    | Return v =>
        v = PyNone /\ 0 < n /\ max_length = Some n /\
        files st !! checkpoint_path img_path = Some (GeoJsonFile (dataset st))
    | _ =>
        (forall m, max_length = Some m -> 0 < m -> n < m) /\
        files st !! checkpoint_path img_path =
          checkpoint_expected fs0 img_path (dataset st)
    end
}.

(** ** A concrete world over the rationals

    Used to run the model: coordinates are rationals, rounding is
    round-half-to-even as in [np.around], and a point intersects a
    footprint when it lies in the bounding box of its ring. *)

Definition Qaround (q : Q) : Z :=
  let f := Qfloor q in
  match Qcompare (Qminus q (inject_Z f)) (Qmake 1 2) with
  | Lt => f
  | Gt => f + 1
  | Eq => if Z.even f then f else f + 1
  end.

Definition Qin_box (p : Q * Q) (ring : list (Q * Q)) : bool :=
  existsb (fun c => Qle_bool c.1 p.1) ring &&
  existsb (fun c => Qle_bool p.1 c.1) ring &&
  existsb (fun c => Qle_bool c.2 p.2) ring &&
  existsb (fun c => Qle_bool p.2 c.2) ring.

#[export] Instance Geo_Q : Geo Q := {|
  fadd := Qplus;
  fsub := Qminus;
  fmul := Qmult;
  fdiv := Qdiv;
  of_int := inject_Z;
  around := fun q => Some (Qaround q);
  intersects := Qin_box
|}.

(** A north-up square tile of [size] pixels of size 1 with its origin
    at (0, 0); reading a window succeeds when it lies inside it. *)
Definition square_tile (size : Z) : Raster (F:=Q) :=
  let s := inject_Z size in
  {| cornerCoordinates :=
       {| upperLeft := (0%Q, 0%Q); upperRight := (s, 0%Q);
          lowerRight := (s, Qopp s); lowerLeft := (0%Q, Qopp s) |};
     geoTransform := [0%Q; 1%Q; 0%Q; 0%Q; 0%Q; Qopp 1%Q];
     ReadAsArray := fun band x y w h =>
       if (0 <=? x) && (0 <=? y) && (x + w <=? size) && (y + h <=? size)
       then Some (repeat (repeat 0 (Z.to_nat w)) (Z.to_nat h))
       else None |}.

(** A directory [tiles] with two tiles and a stray file, and an index
    file that already lists [tiles/a.tif]. *)
Definition demo_index : GeoDataFrame (CoverageRow (F:=Q)) :=
  mkFrame [tile_record "tiles/a.tif" (square_tile 1000)] (Some 4326).

Definition demo_env : Env (F:=Q) :=
  {| listdir := fun p => if String.eqb p "tiles"
                         then Some ["a.tif"; "notes.txt"; "b.tif"] else None;
     gdal := fun f => if String.eqb f "tiles/a.tif" then Some (square_tile 1000)
                      else if String.eqb f "tiles/b.tif" then Some (square_tile 600)
                      else None;
     read_coverage := fun f => if String.eqb f "index.json"
                               then Some demo_index else None;
     read_assets := fun _ => None;
     cwd := "/work" |}.

(** Entropy read off a list, 0 once it is used up. *)
Definition entropy_of (l : list Z) : nat -> Z := fun i => nth i l 0.

(** One tile of 1000 x 1000 pixels and assets given by id and
    position. *)
Definition one_tile_env : Env (F:=Q) :=
  {| listdir := fun _ => Some ["tile.tif"];
     gdal := fun f => if String.eqb f "tile.tif" then Some (square_tile 1000)
                      else None;
     read_coverage := fun _ => None;
     read_assets := fun _ => None;
     cwd := "/work" |}.

Definition one_tile_coverage : GeoDataFrame (CoverageRow (F:=Q)) :=
  mkFrame [tile_record "tile.tif" (square_tile 1000)] (Some 4326).

Definition asset_at (id x y : Z) : AssetRow (F:=Q) :=
  mkAssetRow id (inject_Z x, inject_Z y).

(** [n] assets in a row, with ids [k+1 .. k+n], all well inside the tile. *)
Fixpoint assets_inside (n : nat) (k : Z) : list (AssetRow (F:=Q)) :=
  match n with
  | O => []
  | S n' => asset_at (k + 1) (100 + k) (-500) :: assets_inside n' (k + 1)
  end.

(** The same directory after a first run whose result was saved as
    [index.json]. *)
Definition rerun_env : Env (F:=Q) :=
  {| listdir := listdir demo_env;
     gdal := gdal demo_env;
     read_coverage := fun f => if String.eqb f "index.json"
                               then make_polygon_list demo_env "tiles" None
                               else None;
     read_assets := read_assets demo_env;
     cwd := cwd demo_env |}.

(** A directory in which one of the two tiles cannot be read. *)
Definition broken_env : Env (F:=Q) :=
  {| listdir := fun _ => Some ["a.tif"; "c.tif"];
     gdal := gdal demo_env;
     read_coverage := read_coverage demo_env;
     read_assets := read_assets demo_env;
     cwd := cwd demo_env |}.

(** Two tiles of the same area, and one asset that lies in both. *)
Definition two_tile_env : Env (F:=Q) :=
  {| listdir := fun _ => Some ["a.tif"; "b.tif"];
     gdal := fun f => if String.eqb f "./a.tif" then Some (square_tile 1000)
                      else if String.eqb f "./b.tif" then Some (square_tile 1000)
                      else None;
     read_coverage := fun _ => None;
     read_assets := fun f =>
       if String.eqb f "sierra-leone_raw_towers.geojson"
       then Some (mkFrame [asset_at 7 500 (-500)] (Some 4326)) else None;
     cwd := "/work" |}.

(** ** The script run as a program *)

(** Lines 207-214: index the current directory, save the index as
    [sierra_leone_coverage.json], and extract at most 500 examples
    of 512 x 512 pixels into [/../examples/].  The result is the
    index written (if the indexer did not raise) and what
    [make_examples] leaves and returns. *)
Definition main {F} `{Geo F} (env : Env (F:=F)) (entropy : nat -> Z)
  (fs : gmap string (File (F:=F)))
  : option (GeoDataFrame (CoverageRow (F:=F))) *
    (State (F:=F) * Outcome (F:=F)) :=
  match make_polygon_list env "./" None with
  | None => (None, (initial_state fs, Raised))
  | Some coverage =>
      (Some coverage,
       make_examples env (Path "sierra-leone_raw_towers.geojson")
         (Frame coverage) "/../examples/" (Some 500) 512 512 entropy fs)
  end.

(** * Properties *)

(** ** Strings *)

Lemma substring_whole (t : string) :
  String.substring 0 (String.length t) t = t.
Proof. induction t as [|c t IH]; simpl; [done | by rewrite IH]. Qed.

Lemma substring_app_suffix (s t : string) :
  String.substring (String.length s) (String.length t) (s +:+ t) = t.
Proof. induction s as [|c s IH]; simpl; [apply substring_whole | done]. Qed.

Lemma length_string_app (s t : string) :
  String.length (s +:+ t) = (String.length s + String.length t)%nat.
Proof. induction s as [|c s IH]; simpl; [done | by rewrite IH]. Qed.

Lemma endswith_app (s t : string) : endswith (s +:+ t) t = true.
Proof.
  unfold endswith. rewrite length_string_app.
  replace (String.length s + String.length t - String.length t)%nat
    with (String.length s) by lia.
  rewrite substring_app_suffix, String.eqb_refl, andb_true_r.
  apply Nat.leb_le. lia.
Qed.

(** File names as [os.listdir] gives them contain no separator, so
    joining them to one directory keeps them apart. *)
Lemma path_join_inj (a b1 b2 : string) :
  startswith b1 "/" = false -> startswith b2 "/" = false ->
  path_join a b1 = path_join a b2 -> b1 = b2.
Proof.
  unfold path_join. intros -> ->.
  destruct (String.eqb a "" || endswith a "/").
  - apply String.app_inj.
  - intros E. apply String.app_inj in E. by apply String.app_inj in E.
Qed.

Section IndexerProofs.

Context {F : Type} `{Geo F}.
Implicit Types (env : Env (F:=F)) (cov idx : GeoDataFrame (CoverageRow (F:=F))).

Lemma add_tiles_total env fs cov :
  Forall (fun f => is_Some (gdal env f)) fs ->
  exists recs,
    add_tiles env fs cov = Some (mkFrame (rows cov ++ recs) (crs cov)) /\
    Forall2 (fun f r => exists info, gdal env f = Some info /\
                                     r = tile_record f info) fs recs.
Proof.
  intros Hall. revert cov.
  induction Hall as [|f fs [info Hinfo] _ IH]; intros cov; simpl.
  - exists []. rewrite app_nil_r. by destruct cov.
  - rewrite Hinfo.
    destruct (IH (append cov (tile_record f info))) as (recs & E & Hrecs).
    exists (tile_record f info :: recs). split.
    + unfold tile_record in E |- *. rewrite E. simpl. by rewrite <- app_assoc.
    + constructor; eauto.
Qed.

Lemma add_tiles_filenames env fs cov idx :
  add_tiles env fs cov = Some idx ->
  map cov_filename (rows idx) = map cov_filename (rows cov) ++ fs.
Proof.
  revert cov. induction fs as [|f fs IH]; intros cov; simpl.
  - intros [= <-]. by rewrite app_nil_r.
  - destruct (gdal env f) as [info|]; [|done].
    intros E. rewrite (IH _ E). simpl. by rewrite map_app, <- app_assoc.
Qed.

Lemma set_crs_rows {Row} (df df' : GeoDataFrame Row) e :
  set_crs df e = Some df' -> rows df' = rows df /\ crs df' = Some e.
Proof.
  unfold set_crs. destruct (crs df) as [e'|] eqn:E.
  - destruct (Z.eqb_spec e' e); [|done]. intros [= <-]. by subst.
  - by intros [= <-].
Qed.

Lemma occurrences_map_filename (f : string) (l : list (CoverageRow (F:=F))) :
  occurrences f l = length (filter (fun g => g = f) (map cov_filename l)).
Proof.
  unfold occurrences. induction l as [|r l IH]; [done|]. simpl.
  rewrite !filter_cons. repeat case_decide; simpl; congruence.
Qed.

Lemma NoDup_count_one (f : string) (l : list string) :
  NoDup l -> f ∈ l -> length (filter (fun g => g = f) l) = 1%nat.
Proof.
  induction 1 as [|g l Hg Hl IH]; [by intros ?%elem_of_nil|].
  rewrite filter_cons. intros [E|Hin]%elem_of_cons.
  - subst g. rewrite decide_True by done. simpl. f_equal.
    destruct (filter (fun g : string => g = f) l) as [|x xs] eqn:E; [done|].
    assert (x ∈ filter (fun g : string => g = f) l) as Hx by (rewrite E; left).
    apply list_elem_of_filter in Hx as [Hxf Hxl]. by subst x.
  - rewrite decide_False; [by apply IH|]. by intros ->.
Qed.

Lemma tif_files_NoDup path entries :
  NoDup entries -> Forall (fun e => startswith e "/" = false) entries ->
  NoDup (tif_files path entries).
Proof.
  intros Hnd Hsl. unfold tif_files.
  apply NoDup_fmap_2_strong; [|by apply NoDup_filter].
  intros x y [_ Hx]%list_elem_of_filter [_ Hy]%list_elem_of_filter.
  rewrite Forall_forall in Hsl. apply path_join_inj; auto.
Qed.

(** C1, as amended.  Whenever the directory can be listed, every
    [.tif] file in it has readable metadata and a loaded index is not
    tagged with another reference system, the indexer returns the
    loaded index (empty when no resume file is given or it cannot be
    read) followed by exactly one record per [.tif] file of the
    directory, in listing order; the footprint of each is the polygon
    of the tile's corners in the order upper-left, upper-right,
    lower-right, lower-left.  For a run that does not resume, these
    records are the whole index. *)
Theorem make_polygon_list_records env path resume entries :
  listdir env path = Some entries ->
  Forall (fun f => is_Some (gdal env f)) (tif_files path entries) ->
  crs (load_coverage env resume) = None \/
    crs (load_coverage env resume) = Some 4326 ->
  exists recs,
    make_polygon_list env path resume =
      Some (mkFrame (rows (load_coverage env resume) ++ recs) (Some 4326)) /\
    Forall2 (fun f r =>
               exists info, gdal env f = Some info /\
                 r = mkCoverageRow f
                       [upperLeft (cornerCoordinates info);
                        upperRight (cornerCoordinates info);
                        lowerRight (cornerCoordinates info);
                        lowerLeft (cornerCoordinates info)])
      (tif_files path entries) recs /\
    (resume = None ->
     make_polygon_list env path resume = Some (mkFrame recs (Some 4326))).
Proof.
  intros Hdir Hall Hcrs.
  destruct (add_tiles_total env _ (load_coverage env resume) Hall)
    as (recs & Eadd & Hrecs).
  assert (make_polygon_list env path resume =
            Some (mkFrame (rows (load_coverage env resume) ++ recs) (Some 4326)))
    as Erun.
  { unfold make_polygon_list. rewrite Hdir. simpl. rewrite Eadd.
    unfold set_crs. simpl. by destruct Hcrs as [-> | ->]. }
  exists recs. split; [done|]. split; [done|].
  intros ->. by rewrite Erun.
Qed.

(** C7, as amended.  The indexer keeps the loaded index and appends
    to it: when the directory listing has no repeated name, a tile
    file of the directory appears in the result exactly once more
    than in the loaded index.  It therefore appears once when the
    loaded index does not have it, and is repeated when it does. *)
Theorem resume_occurrences env path resume entries idx f :
  listdir env path = Some entries ->
  NoDup entries ->
  Forall (fun e => startswith e "/" = false) entries ->
  make_polygon_list env path resume = Some idx ->
  f ∈ tif_files path entries ->
  occurrences f (rows idx) =
    S (occurrences f (rows (load_coverage env resume))).
Proof.
  intros Hdir Hnd Hsl Hrun Hf. unfold make_polygon_list in Hrun.
  rewrite Hdir in Hrun. simpl in Hrun.
  destruct (add_tiles env _ _) as [cov|] eqn:Eadd; [|done].
  apply set_crs_rows in Hrun as [Hrows _].
  apply add_tiles_filenames in Eadd.
  rewrite !occurrences_map_filename, Hrows, Eadd, filter_app, length_app.
  rewrite (NoDup_count_one f (tif_files path entries));
    [lia | by apply tif_files_NoDup | done].
Qed.

End IndexerProofs.

Lemma make_polygon_list_records_witness :
  exists recs,
    make_polygon_list demo_env "tiles" (Some "index.json") =
      Some (mkFrame (rows (load_coverage demo_env (Some "index.json")) ++ recs)
              (Some 4326)) /\
    Forall2 (fun f r =>
               exists info, gdal demo_env f = Some info /\
                 r = mkCoverageRow f
                       [upperLeft (cornerCoordinates info);
                        upperRight (cornerCoordinates info);
                        lowerRight (cornerCoordinates info);
                        lowerLeft (cornerCoordinates info)])
      (tif_files "tiles" ["a.tif"; "notes.txt"; "b.tif"]) recs /\
    (Some "index.json" = None ->
     make_polygon_list demo_env "tiles" (Some "index.json") =
       Some (mkFrame recs (Some 4326))).
Proof.
  apply (make_polygon_list_records demo_env "tiles" (Some "index.json")
           ["a.tif"; "notes.txt"; "b.tif"]).
  - reflexivity.
  - repeat constructor; eexists; reflexivity.
  - right. reflexivity.
Defined.

(** C1 as stated fails when the run resumes: the index loaded from
    [index.json] already has a record for [tiles/a.tif], and the run
    adds a second one. *)
Lemma resumed_index_lists_tile_twice :
  exists idx,
    make_polygon_list demo_env "tiles" (Some "index.json") = Some idx /\
    ~ one_record_per_tif demo_env "tiles" idx.
Proof.
  eexists. split; [vm_compute; reflexivity|].
  intros Hone.
  specialize (Hone ["a.tif"; "notes.txt"; "b.tif"] "a.tif" eq_refl).
  assert (2 = 1)%nat as E; [|discriminate E].
  apply Hone; [left | reflexivity].
Qed.

Lemma resume_occurrences_witness :
  occurrences "tiles/b.tif"
    (rows (default empty_frame
             (make_polygon_list rerun_env "tiles" (Some "index.json")))) =
  S (occurrences "tiles/b.tif"
       (rows (load_coverage rerun_env (Some "index.json")))).
Proof.
  apply (resume_occurrences rerun_env "tiles" (Some "index.json")
           ["a.tif"; "notes.txt"; "b.tif"]).
  - reflexivity.
  - repeat constructor; vm_compute; intros Hin;
      repeat (apply elem_of_cons in Hin as [Hin|Hin]; [discriminate Hin|]);
      by apply elem_of_nil in Hin.
  - repeat constructor.
  - vm_compute. reflexivity.
  - vm_compute. right. left.
Defined.

(** C7 as stated fails: running the indexer again on the same
    directory, resuming from the index the first run produced, lists
    every tile twice. *)
Lemma rerun_repeats_every_tile :
  exists idx,
    make_polygon_list rerun_env "tiles" (Some "index.json") = Some idx /\
    ~ no_repeated_tile idx.
Proof.
  eexists. split; [vm_compute; reflexivity|].
  unfold no_repeated_tile. simpl. intros Hnd.
  apply NoDup_cons in Hnd as [Hnot _]. apply Hnot.
  right. left.
Qed.

(** ** The extractor *)

Lemma randint_range (low high u n : Z) :
  randint low high u = Some n -> low <= n < high.
Proof.
  unfold randint. destruct (Z.ltb_spec low high); [|done].
  intros [= <-]. pose proof (Z.mod_pos_bound u (high - low)). lia.
Qed.

Lemma randint_hit (low high n : Z) :
  low <= n < high -> randint low high (n - low) = Some n.
Proof.
  intros Hn. unfold randint. destruct (Z.ltb_spec low high); [|lia].
  rewrite Z.mod_small by lia. f_equal. lia.
Qed.

Lemma draw_offset_admissible (size u o : Z) :
  draw_offset size u = Some o -> admissible size o.
Proof. apply randint_range. Qed.

Lemma bbox_unfold (width height ox oy : Z) :
  bbox width height (ox, oy) =
    (width / 2 + ox - 15, height / 2 + oy - 12,
     width / 2 + ox + 15, height / 2 + oy + 12).
Proof. reflexivity. Qed.

Lemma png_is_not_checkpoint (img_path name : string) :
  png_path img_path name <> checkpoint_path img_path.
Proof.
  unfold png_path, checkpoint_path. intros E.
  apply String.app_inj in E.
  pose proof (endswith_app name ".png") as Hend.
  rewrite E in Hend. discriminate Hend.
Qed.

(** C3, as amended.  The offset of a crop along an axis of the
    configured [size] is a draw of [np.random.randint], whose upper
    end is exclusive: every integer [n] with
    [-(size//2) + 8 <= n <= size//2 - 9] is a possible offset, and no
    offset of [size//2 - 8] or more is.  For an even size nothing
    below [-size/2 + 8] can be drawn either, so the possible offsets
    are exactly the integers from [-size/2 + 8] to [size/2 - 9], and
    the draw is uniform on them: each of the [size - 16] values of
    the entropy gives a different offset. *)
Theorem draw_offset_half_open (size : Z) :
  (forall n, - (size / 2) + 8 <= n < size / 2 - 8 ->
             exists u, draw_offset size u = Some n) /\
  (forall u n, draw_offset size u = Some n -> n < size / 2 - 8) /\
  (Z.even size = true ->
   (forall u n, draw_offset size u = Some n -> - (size / 2) + 8 <= n) /\
   (forall u u',
      0 <= u < size - 16 -> 0 <= u' < size - 16 ->
      draw_offset size u = draw_offset size u' -> u = u')).
Proof.
  split; [|split].
  - intros n Hn. exists (n - ((- size) / 2 + 8)). apply randint_hit.
    revert Hn. Z.to_euclidean_division_equations. lia.
  - intros u n Hu. apply randint_range in Hu. lia.
  - intros Heven. apply Z.even_spec in Heven as [k ->].
    replace ((- (2 * k)) / 2) with (- k)
      by (Z.to_euclidean_division_equations; lia).
    replace (2 * k / 2) with k by (Z.to_euclidean_division_equations; lia).
    split.
    + intros u n Hu. apply randint_range in Hu.
      revert Hu. Z.to_euclidean_division_equations. lia.
    + intros u u' Hu Hu'. unfold draw_offset, randint.
      replace ((- (2 * k)) / 2) with (- k)
        by (Z.to_euclidean_division_equations; lia).
      replace (2 * k / 2) with k by (Z.to_euclidean_division_equations; lia).
      destruct (Z.ltb_spec (- k + 8) (k - 8)); [|lia].
      rewrite !Z.mod_small by lia. intros [= E]. lia.
Qed.

Lemma draw_offset_half_open_witness :
  exists u, draw_offset 512 u = Some (512 / 2 - 9).
Proof.
  apply (proj1 (draw_offset_half_open 512)).
  split; [vm_compute; discriminate | reflexivity].
Defined.

(** C3 as stated fails: for the default size 512 the upper endpoint
    [512//2 - 8 = 248] of the interval is never drawn. *)
Lemma upper_endpoint_never_drawn :
  ~ exists u, draw_offset 512 u = Some (512 / 2 - 8).
Proof. intros [u Hu]. apply randint_range in Hu. simpl in Hu. lia. Qed.

(** C9.  Whenever offsets can be drawn at all, the largest admissible
    offsets put the lower-right corner of the bounding box outside the
    crop: [lr_x > width] and [lr_y > height]. *)
Theorem bbox_can_leave_crop (width height : Z) :
  (- width) / 2 + 8 < width / 2 - 8 ->
  (- height) / 2 + 8 < height / 2 - 8 ->
  exists ux uy ox oy,
    draw_offset width ux = Some ox /\
    draw_offset height uy = Some oy /\
    width < (bbox width height (ox, oy)).1.2 /\
    height < (bbox width height (ox, oy)).2.
Proof.
  intros Hw Hh.
  exists (width / 2 - 9 - ((- width) / 2 + 8)),
         (height / 2 - 9 - ((- height) / 2 + 8)),
         (width / 2 - 9), (height / 2 - 9).
  split; [apply randint_hit; lia|]. split; [apply randint_hit; lia|].
  rewrite bbox_unfold. simpl.
  split; Z.to_euclidean_division_equations; lia.
Qed.

Lemma bbox_can_leave_crop_witness :
  exists ux uy ox oy,
    draw_offset 512 ux = Some ox /\
    draw_offset 512 uy = Some oy /\
    512 < (bbox 512 512 (ox, oy)).1.2 /\
    512 < (bbox 512 512 (ox, oy)).2.
Proof. apply (bbox_can_leave_crop 512 512); reflexivity. Defined.

(** For an even size the asset keeps its distance of 8 pixels: its
    position in the crop, [pixel - crop_origin], lies in [8, size - 8]. *)
Lemma even_size_margin (k o pixel : Z) :
  admissible (2 * k) o ->
  8 <= pixel - crop_origin pixel (2 * k) o <= 2 * k - 8.
Proof.
  unfold admissible, crop_origin. intros Ho.
  Z.to_euclidean_division_equations. lia.
Qed.

(** C4 fails for odd sizes.  For a width [2k+1] the offset
    [(-width)//2 + 8 = -k + 7] can be drawn, and it puts the asset at
    column 7 of the crop, less than 8 pixels from its left edge. *)
Theorem odd_width_breaks_margin (k : Z) :
  8 <= k ->
  exists u ox,
    draw_offset (2 * k + 1) u = Some ox /\
    forall pixel, pixel - crop_origin pixel (2 * k + 1) ox = 7.
Proof.
  intros Hk. exists 0, (- k + 7). split.
  - unfold draw_offset, randint.
    replace ((- (2 * k + 1)) / 2) with (- k - 1)
      by (Z.to_euclidean_division_equations; lia).
    replace ((2 * k + 1) / 2) with k
      by (Z.to_euclidean_division_equations; lia).
    destruct (Z.ltb_spec (- k - 1 + 8) (k - 8)); [|lia].
    rewrite Z.mod_0_l by lia. f_equal. lia.
  - intros pixel. unfold crop_origin.
    Z.to_euclidean_division_equations. lia.
Qed.

Lemma odd_width_breaks_margin_witness :
  exists u ox,
    draw_offset (2 * 8 + 1) u = Some ox /\
    forall pixel, pixel - crop_origin pixel (2 * 8 + 1) ox = 7.
Proof. apply (odd_width_breaks_margin 8). lia. Defined.

Section ExtractorProofs.

Context {F : Type} `{Geo F}.
Implicit Types (st : State (F:=F)) (ds : GeoDataFrame (ExampleRow (F:=F)))
  (fs : gmap string (File (F:=F))) (flow : Flow (F:=F)).

Lemma checkpoint_expected_append fs0 img_path ds r :
  Z.of_nat (length (rows (append ds r))) mod 50 <> 0 ->
  checkpoint_expected fs0 img_path (append ds r) =
    checkpoint_expected fs0 img_path ds.
Proof.
  unfold checkpoint_expected, append. simpl. rewrite length_app. simpl.
  set (n := length (rows ds)). intros Hmod.
  replace (Z.of_nat (n + 1)) with (Z.of_nat n + 1) in * by lia.
  assert ((Z.of_nat n + 1) / 50 = Z.of_nat n / 50) as Ediv.
  { Z.to_euclidean_division_equations. lia. }
  assert ((Z.of_nat n + 1 <? 50) = (Z.of_nat n <? 50)) as ->.
  { destruct (Z.ltb_spec (Z.of_nat n + 1) 50), (Z.ltb_spec (Z.of_nat n) 50);
      try done; try lia.
    exfalso. apply Hmod. replace (Z.of_nat n + 1) with 50 by lia. done. }
  destruct (Z.of_nat n <? 50); [done|].
  rewrite Ediv, take_app_le; [done|].
  fold n. Z.to_euclidean_division_equations. lia.
Qed.

Lemma checkpoint_expected_full fs0 img_path ds :
  rows ds <> [] ->
  Z.of_nat (length (rows ds)) mod 50 = 0 ->
  crs ds = Some 4326 ->
  checkpoint_expected fs0 img_path ds = Some (GeoJsonFile ds).
Proof.
  intros Hne Hmod Hcrs. unfold checkpoint_expected.
  assert (0 < Z.of_nat (length (rows ds))) as Hpos.
  { destruct (rows ds); [done | simpl; lia]. }
  destruct (Z.ltb_spec (Z.of_nat (length (rows ds))) 50).
  - exfalso. Z.to_euclidean_division_equations. lia.
  - replace (50 * (Z.of_nat (length (rows ds)) / 50))
      with (Z.of_nat (length (rows ds)))
      by (Z.to_euclidean_division_equations; lia).
    rewrite Nat2Z.id, firstn_all. destruct ds as [rs c]. simpl in *. by subst.
Qed.

(** The code after the append keeps the invariant. *)
Lemma save_results_inv fs0 img_path m height width ds fs n st flow :
  Forall (produced width height) (rows ds) ->
  crs ds = None \/ crs ds = Some 4326 ->
  rows ds <> [] ->
  (forall k, m = Some k -> 0 < k -> Z.of_nat (length (rows ds)) - 1 < k) ->
  (Z.of_nat (length (rows ds)) mod 50 <> 0 ->
   fs !! checkpoint_path img_path = checkpoint_expected fs0 img_path ds) ->
  save_results img_path m ds fs n = (st, flow) ->
  run_inv fs0 img_path m height width st flow.
Proof.
  intros Hrows Hcrs Hne Hcap Hdisk. unfold save_results.
  assert (0 < Z.of_nat (length (rows ds))) as Hpos.
  { destruct (rows ds); [done | simpl; lia]. }
  destruct (Z.eqb_spec (Z.of_nat (length (rows ds)) mod 50) 0) as [Hmod|Hmod].
  - destruct (set_crs ds 4326) as [ds'|] eqn:Eset.
    2:{ unfold set_crs in Eset. by destruct Hcrs as [E|E]; rewrite E in Eset. }
    apply set_crs_rows in Eset as [Erows Ecrs].
    case_decide as Hm; intros [= <- <-]; constructor; simpl;
      rewrite ?Erows, ?Ecrs; auto.
    + rewrite lookup_insert_eq, ?Erows. auto.
    + rewrite lookup_insert_eq. split.
      * intros k -> Hk. specialize (Hcap k eq_refl Hk).
        assert (Z.of_nat (length (rows ds)) <> k) by congruence. lia.
      * symmetry. apply checkpoint_expected_full; rewrite ?Erows; auto.
  - specialize (Hdisk Hmod).
    case_decide as Hm; intros [= <- <-]; constructor; simpl; auto;
      try (intros _ Hmod'; by destruct Hmod).
    + rewrite lookup_insert_eq. auto.
    + split; [|done]. intros k -> Hk. specialize (Hcap k eq_refl Hk).
      assert (Z.of_nat (length (rows ds)) <> k) by congruence. lia.
Qed.

(** One asset keeps the invariant. *)
Lemma process_asset_inv fs0 ul ps rs img_path m height width entropy row st st' flow :
  run_inv fs0 img_path m height width st Next ->
  process_asset ul ps rs img_path m height width entropy row st = (st', flow) ->
  run_inv fs0 img_path m height width st' flow.
Proof.
  intros [Hrows Hcrs Htag Hflow]. unfold process_asset.
  destruct (draw_offset width _) as [ox|] eqn:Eox.
  2:{ intros [= <- <-]. by constructor. }
  destruct (draw_offset height _) as [oy|] eqn:Eoy.
  2:{ intros [= <- <-]. by constructor. }
  destruct (around _) as [px|]; [|intros [= <- <-]; by constructor].
  destruct (around _) as [py|]; [|intros [= <- <-]; by constructor].
  destruct (read_bands _ _ _ _ _) as [[[r g] b]|].
  2:{ intros [= <- <-]. by constructor. }
  rewrite bbox_unfold. simpl in Hflow. destruct Hflow as [Hcap Hdisk].
  apply save_results_inv; simpl.
  - apply Forall_app. split; [done|]. constructor; [|done].
    exists ox, oy. simpl. rewrite bbox_unfold.
    eauto using draw_offset_admissible.
  - done.
  - by destruct (rows (dataset st)).
  - intros k Hk Hpos. rewrite length_app. simpl.
    specialize (Hcap k Hk Hpos). lia.
  - intros Hmod. rewrite lookup_insert_ne by apply png_is_not_checkpoint.
    rewrite Hdisk. symmetry. by apply checkpoint_expected_append.
Qed.

Lemma run_inv_raise fs0 img_path m height width st :
  run_inv fs0 img_path m height width st Next ->
  run_inv fs0 img_path m height width st Raise.
Proof. intros [? ? ? ?]. by constructor. Qed.

Lemma asset_loop_inv fs0 ul ps rs img_path m height width entropy rws st st' flow :
  run_inv fs0 img_path m height width st Next ->
  asset_loop ul ps rs img_path m height width entropy rws st = (st', flow) ->
  run_inv fs0 img_path m height width st' flow.
Proof.
  revert st. induction rws as [|row rws IH]; intros st Hinv; simpl.
  - by intros [= <- <-].
  - destruct (process_asset _ _ _ _ _ _ _ _ row st) as [st1 fl1] eqn:Estep.
    pose proof (process_asset_inv _ _ _ _ _ _ _ _ _ _ _ _ _ Hinv Estep) as Hinv1.
    destruct fl1; [by apply IH | by intros [= <- <-] ..].
Qed.

Lemma image_loop_inv fs0 env joined img_path m height width entropy images st st' flow :
  run_inv fs0 img_path m height width st Next ->
  image_loop env joined img_path m height width entropy images st = (st', flow) ->
  run_inv fs0 img_path m height width st' flow.
Proof.
  revert st. induction images as [|image images IH]; intros st Hinv; simpl.
  - by intros [= <- <-].
  - destruct (gdal env image) as [rs|];
      [|intros [= <- <-]; by apply run_inv_raise].
    destruct (geoTransform rs !! 0%nat) as [t0|];
      [|intros [= <- <-]; by apply run_inv_raise].
    destruct (geoTransform rs !! 3%nat) as [t3|];
      [|intros [= <- <-]; by apply run_inv_raise].
    destruct (geoTransform rs !! 1%nat) as [t1|];
      [|intros [= <- <-]; by apply run_inv_raise].
    destruct (geoTransform rs !! 5%nat) as [t5|];
      [|intros [= <- <-]; by apply run_inv_raise].
    destruct (asset_loop _ _ _ _ _ _ _ _ _ st) as [st1 fl1] eqn:Eloop.
    pose proof (asset_loop_inv _ _ _ _ _ _ _ _ _ _ _ _ _ Hinv Eloop) as Hinv1.
    destruct fl1; [by apply IH | by intros [= <- <-] ..].
Qed.

Lemma initial_state_inv fs0 img_path m height width :
  run_inv fs0 img_path m height width (initial_state fs0) Next.
Proof.
  constructor; simpl; [constructor | by left | done |].
  split; [lia | done].
Qed.

(** Every run of [make_examples] ends in a state and a control flow
    that satisfy the invariant. *)
Lemma make_examples_inv env assets coverage img_path m height width entropy fs0 :
  exists flow,
    (make_examples env assets coverage img_path m height width entropy fs0).2
      = finish flow /\
    run_inv fs0 (cwd env +:+ img_path) m height width
      (make_examples env assets coverage img_path m height width entropy fs0).1
      flow.
Proof.
  unfold make_examples.
  destruct (resolve _ assets) as [a|];
    [|exists Raise; split; [done | apply run_inv_raise, initial_state_inv]].
  destruct (resolve _ coverage) as [c|];
    [|exists Raise; split; [done | apply run_inv_raise, initial_state_inv]].
  destruct (image_loop _ _ _ _ _ _ _ _ _) as [st flow] eqn:Eloop.
  exists flow. split; [done|]. simpl.
  eapply image_loop_inv; [apply initial_state_inv | exact Eloop].
Qed.

(** A [return] or an exception in the body ends both loops at once:
    what is left of the assets and of the tiles is not looked at. *)
Lemma asset_loop_app ul ps rs img_path m height width entropy rws1 rws2 st :
  asset_loop ul ps rs img_path m height width entropy (rws1 ++ rws2) st =
    match asset_loop ul ps rs img_path m height width entropy rws1 st with
    | (st1, Next) =>
        asset_loop ul ps rs img_path m height width entropy rws2 st1
    | stop => stop
    end.
Proof.
  revert st. induction rws1 as [|row rws1 IH]; intros st; simpl; [done|].
  destruct (process_asset _ _ _ _ _ _ _ _ row st) as [st1 [| |]]; auto.
Qed.

Lemma image_loop_app env joined img_path m height width entropy imgs1 imgs2 st :
  image_loop env joined img_path m height width entropy (imgs1 ++ imgs2) st =
    match image_loop env joined img_path m height width entropy imgs1 st with
    | (st1, Next) =>
        image_loop env joined img_path m height width entropy imgs2 st1
    | stop => stop
    end.
Proof.
  revert st. induction imgs1 as [|image imgs1 IH]; intros st; simpl; [done|].
  destruct (gdal env image) as [rs|]; [|done].
  destruct (geoTransform rs !! 0%nat); [|done].
  destruct (geoTransform rs !! 3%nat); [|done].
  destruct (geoTransform rs !! 1%nat); [|done].
  destruct (geoTransform rs !! 5%nat); [|done].
  destruct (asset_loop _ _ _ _ _ _ _ _ _ st) as [st1 [| |]]; auto.
Qed.

(** C2 fails on the height.  Every record of the dataset has a box
    that is centred on the nominal centre of the crop plus the offsets
    drawn for it and is [tower_width = 30] pixels wide, but it is 24
    pixels high, one less than [tower_height = 25]: the half-height
    [25 // 2 = 12] is taken on both sides of the centre. *)
Theorem bbox_is_30_by_24 env assets coverage img_path m height width entropy fs0 :
  Forall (fun r =>
            lr_x r - ul_x r = tower_width /\
            lr_y r - ul_y r = tower_height - 1 /\
            exists ox oy,
              admissible width ox /\ admissible height oy /\
              ul_x r + 15 = width / 2 + ox /\ lr_x r - 15 = width / 2 + ox /\
              ul_y r + 12 = height / 2 + oy /\ lr_y r - 12 = height / 2 + oy)
    (rows (dataset
       (make_examples env assets coverage img_path m height width entropy fs0).1)).
Proof.
  destruct (make_examples_inv env assets coverage img_path m height width
              entropy fs0) as (flow & _ & [Hrows _ _ _]).
  eapply Forall_impl; [exact Hrows|].
  intros r (ox & oy & Hox & Hoy & Hbox). rewrite bbox_unfold in Hbox.
  injection Hbox as E1 E2 E3 E4. unfold tower_width, tower_height.
  split; [lia|]. split; [lia|]. exists ox, oy.
  split; [done|]. split; [done|]. lia.
Qed.

(** C10.  [make_examples] never hands the dataset back: a call that
    does not raise returns [None], whether it stops at the cap or
    runs out of input. *)
Theorem make_examples_returns_None env assets coverage img_path m height width
    entropy fs0 :
  (make_examples env assets coverage img_path m height width entropy fs0).2
    = Raised \/
  (make_examples env assets coverage img_path m height width entropy fs0).2
    = Returned PyNone.
Proof.
  destruct (make_examples_inv env assets coverage img_path m height width
              entropy fs0) as (flow & -> & [_ _ _ Hflow]).
  destruct flow as [|v|]; simpl in *; [by right | | by left].
  destruct Hflow as (-> & _). by right.
Qed.

(** C5.  With a cap [m > 0] the dataset never grows beyond [m]
    records, and a run whose dataset reaches [m] records has stopped
    there by [return]: the checkpoint file then holds the dataset,
    which has exactly [m] records.  By [asset_loop_app] and
    [image_loop_app] the [return] leaves the remaining assets and
    tiles unprocessed. *)
Theorem cap_reached_stops_run env assets coverage img_path m height width
    entropy fs0 :
  0 < m ->
  let run := make_examples env assets coverage img_path (Some m) height width
               entropy fs0 in
  let n := Z.of_nat (length (rows (dataset run.1))) in
  n <= m /\
  (n = m ->
   run.2 = Returned PyNone /\
   exists d,
     files run.1 !! checkpoint_path (cwd env +:+ img_path)
       = Some (GeoJsonFile d) /\
     d = dataset run.1 /\ Z.of_nat (length (rows d)) = m).
Proof.
  intros Hm run n. subst run n.
  destruct (make_examples_inv env assets coverage img_path (Some m) height
              width entropy fs0) as (flow & -> & [_ _ _ Hflow]).
  destruct flow as [|v|]; simpl in Hflow.
  - destruct Hflow as [Hcap _]. specialize (Hcap m eq_refl Hm). split; lia.
  - destruct Hflow as (-> & _ & [= E] & Hdisk). split; [lia|].
    intros _. split; [done|]. eauto.
  - destruct Hflow as [Hcap _]. specialize (Hcap m eq_refl Hm). split; lia.
Qed.

(** The code after an append, case by case: a length divisible by
    50 writes the dataset, tagged EPSG:4326, over the checkpoint
    file; any other length below the cap writes nothing. *)
Lemma save_results_periodic img_path m ds fs k :
  crs ds = None \/ crs ds = Some 4326 ->
  Z.of_nat (length (rows ds)) mod 50 = 0 ->
  exists flow,
    save_results img_path m ds fs k =
      (mkState (mkFrame (rows ds) (Some 4326))
         (<[checkpoint_path img_path :=
              GeoJsonFile (mkFrame (rows ds) (Some 4326))]> fs) k, flow).
Proof.
  intros Hcrs Hmod. unfold save_results.
  rewrite Hmod. simpl.
  assert (set_crs ds 4326 = Some (mkFrame (rows ds) (Some 4326))) as ->.
  { unfold set_crs. destruct ds as [rs c]. simpl in *.
    by destruct Hcrs as [-> | ->]. }
  simpl. case_decide; eexists; [|done].
  by rewrite insert_insert_eq.
Qed.

Lemma save_results_silent img_path m ds fs k :
  Z.of_nat (length (rows ds)) mod 50 <> 0 ->
  m <> Some (Z.of_nat (length (rows ds))) ->
  save_results img_path m ds fs k = (mkState ds fs k, Next).
Proof.
  intros Hmod Hm. unfold save_results.
  destruct (Z.eqb_spec (Z.of_nat (length (rows ds)) mod 50) 0); [done|].
  by rewrite decide_False.
Qed.

(** C6.  Whenever the dataset has a positive multiple of 50 records,
    the checkpoint file holds that very dataset, tagged EPSG:4326, so
    the record counts on disk and in memory agree and are at least
    50.  No other append below the cap writes: while the cap has not
    been hit, the file is as it was before the run until 50 records
    exist, and after that it holds only the first [50 * (n // 50)]
    records, so the trailing partial batch of a run that ends by
    running out of input is not on disk. *)
Theorem checkpoint_every_50 env assets coverage img_path m height width
    entropy fs0 :
  let run := make_examples env assets coverage img_path m height width
               entropy fs0 in
  let n := Z.of_nat (length (rows (dataset run.1))) in
  let on_disk := files run.1 !! checkpoint_path (cwd env +:+ img_path) in
  (0 < n /\ n mod 50 = 0 ->
   on_disk = Some (GeoJsonFile (dataset run.1)) /\
   crs (dataset run.1) = Some 4326 /\ 50 <= n) /\
  (m <> Some n /\ n < 50 ->
   on_disk = fs0 !! checkpoint_path (cwd env +:+ img_path)) /\
  (m <> Some n /\ 50 <= n /\ n mod 50 <> 0 ->
   exists d,
     on_disk = Some (GeoJsonFile d) /\ crs d = Some 4326 /\
     rows d = take (Z.to_nat (50 * (n / 50))) (rows (dataset run.1)) /\
     Z.of_nat (length (rows d)) = 50 * (n / 50) /\
     Z.of_nat (length (rows d)) < n).
Proof.
  intros run n on_disk. subst run n on_disk.
  destruct (make_examples_inv env assets coverage img_path m height width
              entropy fs0) as (flow & _ & [_ _ Htag Hflow]).
  set (st := (make_examples env assets coverage img_path m height width
                entropy fs0).1) in *.
  set (n := Z.of_nat (length (rows (dataset st)))) in *.
  assert (m <> Some n ->
          files st !! checkpoint_path (cwd env +:+ img_path) =
            checkpoint_expected fs0 (cwd env +:+ img_path) (dataset st))
    as Hdisk.
  { intros Hcap. destruct flow as [|v|]; simpl in Hflow; try apply Hflow.
    by destruct Hflow as (_ & _ & Hm & _). }
  split; [|split].
  - intros [Hpos Hmod].
    assert (rows (dataset st) <> []) as Hne.
    { intros E. subst n. rewrite E in Hpos. simpl in Hpos. lia. }
    split; [|split; [auto|Z.to_euclidean_division_equations; lia]].
    destruct flow as [|v|]; simpl in Hflow;
      try (destruct Hflow as [_ ->]; by apply checkpoint_expected_full; auto).
    by destruct Hflow as (_ & _ & _ & ->).
  - intros [Hcap Hlt]. rewrite (Hdisk Hcap). unfold checkpoint_expected. fold n.
    destruct (Z.ltb_spec n 50); [done | lia].
  - intros (Hcap & Hge & Hmod). rewrite (Hdisk Hcap).
    unfold checkpoint_expected. fold n.
    destruct (Z.ltb_spec n 50); [lia|].
    eexists. split; [done|]. simpl. split; [done|]. split; [done|].
    rewrite length_take. subst n.
    Z.to_euclidean_division_equations. lia.
Qed.

(** C8.  When one of the three band reads of an asset fails, the
    body of the loop ends for that asset with nothing saved and
    nothing appended, and the loop goes on with the next asset. *)
Theorem failed_read_skips_asset ul ps rs img_path m height width entropy
    row rest st ox oy px py :
  draw_offset width (entropy (draws st)) = Some ox ->
  draw_offset height (entropy (S (draws st))) = Some oy ->
  around (fdiv (fsub (asset_geometry (j_asset row)).1 ul.1) ps.1) = Some px ->
  around (fdiv (fsub (asset_geometry (j_asset row)).2 ul.2) ps.2) = Some py ->
  (exists band, (1 <= band <= 3)%nat /\
     ReadAsArray rs band (crop_origin px width ox) (crop_origin py height oy)
       width height = None) ->
  exists st',
    process_asset ul ps rs img_path m height width entropy row st
      = (st', Next) /\
    dataset st' = dataset st /\ files st' = files st /\
    asset_loop ul ps rs img_path m height width entropy (row :: rest) st
      = asset_loop ul ps rs img_path m height width entropy rest st'.
Proof.
  intros Hox Hoy Hpx Hpy (band & Hband & Hread).
  assert (read_bands rs (crop_origin px width ox) (crop_origin py height oy)
            width height = None) as Hnone.
  { unfold read_bands.
    assert (band = 1 \/ band = 2 \/ band = 3)%nat as [->|[->| ->]] by lia;
      rewrite ?Hread; repeat case_match; done. }
  assert (process_asset ul ps rs img_path m height width entropy row st =
            (mkState (dataset st) (files st) (S (S (draws st))), Next)) as Estep.
  { unfold process_asset. by rewrite Hox, Hoy, Hpx, Hpy, Hnone. }
  eexists. split; [exact Estep|]. split; [done|]. split; [done|].
  simpl. by rewrite Estep.
Qed.

End ExtractorProofs.

(** ** The model at work on the concrete world *)

Lemma cap_reached_stops_run_witness :
  let run := make_examples one_tile_env
               (Frame (mkFrame (assets_inside 3 0) None))
               (Frame one_tile_coverage) "/ex/" (Some 2) 20 20
               (entropy_of [0; 1; 2; 3]) ∅ in
  let n := Z.of_nat (length (rows (dataset run.1))) in
  n <= 2 /\
  (n = 2 ->
   run.2 = Returned PyNone /\
   exists d,
     files run.1 !! checkpoint_path (cwd one_tile_env +:+ "/ex/")
       = Some (GeoJsonFile d) /\
     d = dataset run.1 /\ Z.of_nat (length (rows d)) = 2).
Proof.
  apply (cap_reached_stops_run one_tile_env
           (Frame (mkFrame (assets_inside 3 0) None))
           (Frame one_tile_coverage) "/ex/" 2 20 20
           (entropy_of [0; 1; 2; 3]) ∅).
  lia.
Defined.

(** Three assets and a cap of two: the run returns after the second
    record, having drawn offsets for two assets only. *)
Example cap_of_two_leaves_third_asset :
  let run := make_examples one_tile_env
               (Frame (mkFrame (assets_inside 3 0) None))
               (Frame one_tile_coverage) "/ex/" (Some 2) 20 20
               (entropy_of [0; 1; 2; 3]) ∅ in
  map filename (rows (dataset run.1)) = ["1"; "2"] /\
  draws run.1 = 4%nat /\
  run.2 = Returned PyNone /\
  files run.1 !! "/work/ex/3.png" = None /\
  files run.1 !! "/work/ex/tower_examples.geojson"
    = Some (GeoJsonFile (dataset run.1)).
Proof. vm_compute. repeat split; reflexivity. Qed.

Lemma checkpoint_every_50_witness :
  let run := make_examples one_tile_env
               (Frame (mkFrame (assets_inside 53 0) None))
               (Frame one_tile_coverage) "/ex/" None 20 20
               (entropy_of []) ∅ in
  let n := Z.of_nat (length (rows (dataset run.1))) in
  exists d,
    files run.1 !! checkpoint_path (cwd one_tile_env +:+ "/ex/")
      = Some (GeoJsonFile d) /\ crs d = Some 4326 /\
    rows d = take (Z.to_nat (50 * (n / 50))) (rows (dataset run.1)) /\
    Z.of_nat (length (rows d)) = 50 * (n / 50) /\
    Z.of_nat (length (rows d)) < n.
Proof.
  apply (proj2 (proj2 (checkpoint_every_50 one_tile_env
           (Frame (mkFrame (assets_inside 53 0) None))
           (Frame one_tile_coverage) "/ex/" None 20 20 (entropy_of []) ∅))).
  split; [discriminate|]. split; vm_compute; discriminate.
Defined.

Lemma bbox_is_30_by_24_witness :
  Forall (fun r =>
            lr_x r - ul_x r = tower_width /\
            lr_y r - ul_y r = tower_height - 1 /\
            exists ox oy,
              admissible 20 ox /\ admissible 20 oy /\
              ul_x r + 15 = 20 / 2 + ox /\ lr_x r - 15 = 20 / 2 + ox /\
              ul_y r + 12 = 20 / 2 + oy /\ lr_y r - 12 = 20 / 2 + oy)
    (rows (dataset
       (make_examples one_tile_env
          (Frame (mkFrame [asset_at 7 500 (-500)] None))
          (Frame one_tile_coverage) "/ex/" (Some 1) 20 20
          (entropy_of [3; 0]) ∅).1)).
Proof.
  apply (bbox_is_30_by_24 one_tile_env
           (Frame (mkFrame [asset_at 7 500 (-500)] None))
           (Frame one_tile_coverage) "/ex/" (Some 1) 20 20
           (entropy_of [3; 0]) ∅).
Defined.

(** 53 assets and no cap: the one write happens at the 50th record,
    and the last three records are not on disk when the run ends. *)
Example fifty_three_assets_fifty_on_disk :
  let run := make_examples one_tile_env
               (Frame (mkFrame (assets_inside 53 0) None))
               (Frame one_tile_coverage) "/ex/" None 20 20
               (entropy_of []) ∅ in
  length (rows (dataset run.1)) = 53%nat /\
  run.2 = Returned PyNone /\
  files run.1 !! "/work/ex/tower_examples.geojson"
    = Some (GeoJsonFile (mkFrame (take 50 (rows (dataset run.1))) (Some 4326))).
Proof. vm_compute. repeat split; reflexivity. Qed.

(** 49 assets and no cap: nothing is written to the checkpoint file. *)
Example forty_nine_assets_nothing_on_disk :
  let run := make_examples one_tile_env
               (Frame (mkFrame (assets_inside 49 0) None))
               (Frame one_tile_coverage) "/ex/" None 20 20
               (entropy_of []) ∅ in
  length (rows (dataset run.1)) = 49%nat /\
  run.2 = Returned PyNone /\
  files run.1 !! "/work/ex/tower_examples.geojson" = None.
Proof. vm_compute. repeat split; reflexivity. Qed.

Lemma failed_read_skips_asset_witness :
  let row := mkJoinedRow (asset_at 7 5 (-5)) "tile.tif" in
  let rest := [mkJoinedRow (asset_at 8 500 (-500)) "tile.tif"] in
  let st0 := initial_state (F:=Q) ∅ in
  exists st',
    process_asset (0%Q, 0%Q) (1%Q, Qopp 1%Q) (square_tile 1000) "/work/ex/"
      None 20 20 (entropy_of []) row st0 = (st', Next) /\
    dataset st' = dataset st0 /\ files st' = files st0 /\
    asset_loop (0%Q, 0%Q) (1%Q, Qopp 1%Q) (square_tile 1000) "/work/ex/"
      None 20 20 (entropy_of []) (row :: rest) st0
    = asset_loop (0%Q, 0%Q) (1%Q, Qopp 1%Q) (square_tile 1000) "/work/ex/"
        None 20 20 (entropy_of []) rest st'.
Proof.
  apply (failed_read_skips_asset (0%Q, 0%Q) (1%Q, Qopp 1%Q) (square_tile 1000)
           "/work/ex/" None 20 20 (entropy_of [])
           (mkJoinedRow (asset_at 7 5 (-5)) "tile.tif")
           [mkJoinedRow (asset_at 8 500 (-500)) "tile.tif"]
           (initial_state ∅) (-2) (-2) 5 5).
  - reflexivity.
  - reflexivity.
  - reflexivity.
  - reflexivity.
  - exists 1%nat. split; [lia | reflexivity].
Defined.

(** An asset 5 pixels from the corner of the tile: its window leaves
    the raster, it is skipped, and the next asset is still done. *)
Example asset_at_the_edge_is_skipped :
  let run := make_examples one_tile_env
               (Frame (mkFrame [asset_at 7 5 (-5); asset_at 8 500 (-500)] None))
               (Frame one_tile_coverage) "/ex/" None 20 20
               (entropy_of []) ∅ in
  map filename (rows (dataset run.1)) = ["8"] /\
  files run.1 !! "/work/ex/7.png" = None /\
  is_Some (files run.1 !! "/work/ex/8.png") /\
  run.2 = Returned PyNone.
Proof. vm_compute. repeat split; try reflexivity. eexists; reflexivity. Qed.

(** The scenario of the specification, on a crop of 20 x 20: one
    tile, one asset with id 7 at (500, -500), a cap of one.  The one
    record is 30 wide and 24 high, and reaches outside the crop. *)
Example one_asset_one_record :
  let run := make_examples one_tile_env
               (Frame (mkFrame [asset_at 7 500 (-500)] None))
               (Frame one_tile_coverage) "/ex/" (Some 1) 20 20
               (entropy_of [3; 0]) ∅ in
  map (fun r => (filename r, ul_x r, ul_y r, lr_x r, lr_y r))
      (rows (dataset run.1)) = [("7", -4, -4, 26, 20)] /\
  run.2 = Returned PyNone.
Proof. vm_compute. split; reflexivity. Qed.

(** The same asset with a crop 17 pixels wide: the only offset that
    can be drawn is -1, the asset sits at column 7 of the crop (the
    middle of the box, [ul_x + 15]). *)
Example width_17_puts_asset_at_column_7 :
  let run := make_examples one_tile_env
               (Frame (mkFrame [asset_at 7 500 (-500)] None))
               (Frame one_tile_coverage) "/ex/" (Some 1) 20 17
               (entropy_of [5; 0]) ∅ in
  map (fun r => ul_x r + 15) (rows (dataset run.1)) = [7].
Proof. vm_compute. reflexivity. Qed.

(** With a size of 16 or less no offset can be drawn and the run
    ends in the [ValueError] of [np.random.randint]. *)
Example width_16_raises :
  (make_examples one_tile_env
     (Frame (mkFrame [asset_at 7 500 (-500)] None))
     (Frame one_tile_coverage) "/ex/" (Some 1) 16 16
     (entropy_of []) ∅).2 = Raised.
Proof. vm_compute. reflexivity. Qed.

(** * Further properties of the indexer *)

Lemma string_app_assoc (a b c : string) : (a +:+ b) +:+ c = a +:+ b +:+ c.
Proof.
  induction a as [|x a IH]; [done|].
  change (String x ((a +:+ b) +:+ c) = String x (a +:+ b +:+ c)).
  by f_equal.
Qed.

Lemma substring_split (s : string) (k : nat) :
  (k <= String.length s)%nat ->
  s = String.substring 0 k s +:+ String.substring k (String.length s - k) s.
Proof.
  revert k. induction s as [|c s IH]; intros k Hk; simpl in *.
  - by destruct k.
  - destruct k as [|k]; simpl.
    + by rewrite substring_whole.
    + change (String c s =
              String c (String.substring 0 k s +:+
                        String.substring k (String.length s - k) s)).
      f_equal. apply IH. lia.
Qed.

Lemma endswith_inv (s suffix : string) :
  endswith s suffix = true -> exists p, s = p +:+ suffix.
Proof.
  unfold endswith. intros [Hlen Heq]%andb_true_iff.
  apply Nat.leb_le in Hlen. apply String.eqb_eq in Heq.
  exists (String.substring 0 (String.length s - String.length suffix) s).
  pose proof (substring_split s (String.length s - String.length suffix))
    as Hsplit.
  replace (String.length s - (String.length s - String.length suffix))%nat
    with (String.length suffix) in Hsplit by lia.
  rewrite Heq in Hsplit. apply Hsplit. lia.
Qed.

Lemma endswith_app_l (a b suffix : string) :
  endswith b suffix = true -> endswith (a +:+ b) suffix = true.
Proof.
  intros [p ->]%endswith_inv. rewrite <- string_app_assoc.
  apply endswith_app.
Qed.

Lemma path_join_endswith (a b suffix : string) :
  endswith b suffix = true -> endswith (path_join a b) suffix = true.
Proof.
  intros Hb. unfold path_join.
  destruct (startswith b "/"); [done|].
  destruct (String.eqb a "" || endswith a "/"); auto using endswith_app_l.
Qed.

Section IndexerMore.

Context {F : Type} `{Geo F}.
Implicit Types (env : Env (F:=F)) (cov idx : GeoDataFrame (CoverageRow (F:=F))).

Lemma add_tiles_unreadable env fs cov f :
  f ∈ fs -> gdal env f = None -> add_tiles env fs cov = None.
Proof.
  intros Hin Hf. revert cov.
  induction fs as [|g fs IH]; intros cov; [by apply elem_of_nil in Hin|].
  simpl. apply elem_of_cons in Hin as [<-|Hin]; [by rewrite Hf|].
  destruct (gdal env g); [by apply IH | done].
Qed.

(** The records a pass over the tiles appends do not depend on the
    index it starts from. *)
Lemma add_tiles_shift env fs cov res :
  add_tiles env fs cov = Some res ->
  exists recs,
    rows res = rows cov ++ recs /\ crs res = crs cov /\
    forall cov', add_tiles env fs cov' =
                   Some (mkFrame (rows cov' ++ recs) (crs cov')).
Proof.
  revert cov. induction fs as [|f fs IH]; intros cov; simpl.
  - intros [= <-]. exists []. rewrite app_nil_r. split; [done|]. split; [done|].
    intros [rs c]. simpl. by rewrite app_nil_r.
  - destruct (gdal env f) as [info|]; [|done]. intros Hres.
    destruct (IH _ Hres) as (recs & Hrows & Hcrs & Hany).
    exists (tile_record f info :: recs). simpl in Hrows.
    split; [by rewrite Hrows, <- app_assoc|]. split; [done|].
    intros cov'. unfold tile_record. rewrite Hany. simpl.
    by rewrite <- app_assoc.
Qed.

(** X1.  A [.tif] file whose metadata cannot be read aborts the
    indexer: there is no index at all, not an index without that
    tile. *)
Theorem unreadable_tile_aborts_indexer env path resume entries f :
  listdir env path = Some entries ->
  f ∈ entries -> endswith f ".tif" = true ->
  gdal env (path_join path f) = None ->
  make_polygon_list env path resume = None.
Proof.
  intros Hdir Hin Htif Hbad. unfold make_polygon_list. rewrite Hdir. simpl.
  rewrite (add_tiles_unreadable env _ _ (path_join path f)); [done| |done].
  unfold tif_files. apply list_elem_of_fmap. exists f. split; [done|].
  by apply list_elem_of_filter.
Qed.

(** X2.  A run that starts from an empty index (no resume file, or one
    that cannot be read) over a listing without repeated names gives
    an index in which no file name is repeated. *)
Theorem fresh_index_has_no_repeated_tile env path resume entries idx :
  listdir env path = Some entries ->
  NoDup entries ->
  Forall (fun e => startswith e "/" = false) entries ->
  rows (load_coverage env resume) = [] ->
  make_polygon_list env path resume = Some idx ->
  no_repeated_tile idx.
Proof.
  intros Hdir Hnd Hsl Hfresh Hrun. unfold make_polygon_list in Hrun.
  rewrite Hdir in Hrun. simpl in Hrun.
  destruct (add_tiles env _ _) as [cov|] eqn:Eadd; [|done].
  apply set_crs_rows in Hrun as [Hrows _].
  apply add_tiles_filenames in Eadd. rewrite Hfresh in Eadd. simpl in Eadd.
  unfold no_repeated_tile. rewrite Hrows, Eadd.
  by apply tif_files_NoDup.
Qed.

(** X3.  Entries of the directory that do not end in [.tif] never
    get into the index: every file name of the result was in the
    loaded index or ends in [.tif]. *)
Theorem index_lists_only_tif_files env path resume idx :
  make_polygon_list env path resume = Some idx ->
  Forall (fun name =>
            name ∈ map cov_filename (rows (load_coverage env resume)) \/
            endswith name ".tif" = true)
    (map cov_filename (rows idx)).
Proof.
  unfold make_polygon_list.
  destruct (listdir env path) as [entries|]; [|done]. simpl.
  destruct (add_tiles env _ _) as [cov|] eqn:Eadd; [|done].
  intros [Hrows _]%set_crs_rows.
  apply add_tiles_filenames in Eadd. rewrite Hrows, Eadd.
  apply Forall_app. split.
  - apply Forall_forall. auto.
  - apply Forall_forall. intros name Hname. right.
    unfold tif_files in Hname.
    apply list_elem_of_fmap in Hname as (f & -> & Hf).
    apply list_elem_of_filter in Hf as [Hf _].
    by apply path_join_endswith.
Qed.

(** X4.  Indexing a directory, saving the result and indexing the
    same directory again with that file as resume file gives the
    first index twice over. *)
Theorem resume_from_own_result_doubles_index env path file idx :
  make_polygon_list env path None = Some idx ->
  read_coverage env file = Some idx ->
  make_polygon_list env path (Some file) =
    Some (mkFrame (rows idx ++ rows idx) (Some 4326)).
Proof.
  unfold make_polygon_list.
  destruct (listdir env path) as [entries|]; [|done]. simpl.
  intros Hfirst Hread. rewrite Hread.
  destruct (add_tiles env _ empty_frame) as [cov|] eqn:Eadd; [|done].
  destruct (add_tiles_shift _ _ _ _ Eadd) as (recs & Hrows & Hcrs & Hany).
  simpl in Hrows, Hcrs.
  apply set_crs_rows in Hfirst as [Hrows1 Hcrs1].
  rewrite Hany. unfold set_crs. simpl. rewrite Hcrs1. simpl.
  destruct idx as [rs c]. simpl in *. subst. done.
Qed.

End IndexerMore.

Lemma unreadable_tile_aborts_indexer_witness :
  make_polygon_list broken_env "tiles" None = None.
Proof.
  apply (unreadable_tile_aborts_indexer broken_env "tiles" None
           ["a.tif"; "c.tif"] "c.tif").
  - reflexivity.
  - right. left.
  - reflexivity.
  - reflexivity.
Defined.

Lemma fresh_index_has_no_repeated_tile_witness :
  no_repeated_tile
    (default empty_frame (make_polygon_list demo_env "tiles" (Some "nothing.json"))).
Proof.
  apply (fresh_index_has_no_repeated_tile demo_env "tiles" (Some "nothing.json")
           ["a.tif"; "notes.txt"; "b.tif"]).
  - reflexivity.
  - repeat constructor; vm_compute; intros Hin;
      repeat (apply elem_of_cons in Hin as [Hin|Hin]; [discriminate Hin|]);
      by apply elem_of_nil in Hin.
  - repeat constructor.
  - reflexivity.
  - vm_compute. reflexivity.
Defined.

Lemma index_lists_only_tif_files_witness :
  Forall (fun name =>
            name ∈ map cov_filename
                     (rows (load_coverage demo_env (Some "index.json"))) \/
            endswith name ".tif" = true)
    (map cov_filename
       (rows (default empty_frame
                (make_polygon_list demo_env "tiles" (Some "index.json"))))).
Proof.
  apply (index_lists_only_tif_files demo_env "tiles" (Some "index.json")).
  vm_compute. reflexivity.
Defined.

Lemma resume_from_own_result_doubles_index_witness :
  make_polygon_list rerun_env "tiles" (Some "index.json") =
    Some (mkFrame
            (rows (default empty_frame (make_polygon_list demo_env "tiles" None)) ++
             rows (default empty_frame (make_polygon_list demo_env "tiles" None)))
            (Some 4326)).
Proof.
  apply (resume_from_own_result_doubles_index rerun_env "tiles" "index.json").
  - vm_compute. reflexivity.
  - vm_compute. reflexivity.
Defined.

(** * Further properties of the extractor *)

Lemma draw_offset_raises_iff (size u : Z) :
  draw_offset size u = None <-> size <= 16.
Proof.
  unfold draw_offset, randint.
  destruct (Z.ltb_spec ((- size) / 2 + 8) (size / 2 - 8)) as [Hlt|Hge].
  - split; [done|]. intros Hsize. exfalso.
    revert Hlt. Z.to_euclidean_division_equations. lia.
  - split; [|done]. intros _.
    revert Hge. Z.to_euclidean_division_equations. lia.
Qed.

Section ExtractorMore.

Context {F : Type} `{Geo F}.
Implicit Types (st : State (F:=F)) (ds : GeoDataFrame (ExampleRow (F:=F)))
  (fs : gmap string (File (F:=F))) (flow : Flow (F:=F)).

(** What the code after the append does to the state. *)
Lemma save_results_effect img_path m ds fs n st' flow :
  save_results img_path m ds fs n = (st', flow) ->
  rows (dataset st') = rows ds /\
  (forall k, k <> checkpoint_path img_path -> files st' !! k = fs !! k) /\
  (files st' !! checkpoint_path img_path = fs !! checkpoint_path img_path \/
   exists d, files st' !! checkpoint_path img_path = Some (GeoJsonFile d)).
Proof.
  unfold save_results.
  destruct (Z.of_nat (length (rows ds)) mod 50 =? 0).
  - destruct (set_crs ds 4326) as [ds'|] eqn:Eset.
    + apply set_crs_rows in Eset as [Erows _].
      case_decide; intros [= <- <-]; simpl; (split; [done|]); split.
      * intros k Hk. by rewrite !lookup_insert_ne.
      * right. rewrite lookup_insert_eq. eauto.
      * intros k Hk. by rewrite lookup_insert_ne.
      * right. rewrite lookup_insert_eq. eauto.
    + intros [= <- <-]. simpl. auto.
  - case_decide; intros [= <- <-]; simpl; (split; [done|]); split; auto.
    + intros k Hk. by rewrite lookup_insert_ne.
    + right. rewrite lookup_insert_eq. eauto.
Qed.

(** What one pass of the loop body does to the state: nothing, or one
    record and its image. *)
Lemma process_asset_effect ul ps rs img_path m height width entropy row st st' flow :
  process_asset ul ps rs img_path m height width entropy row st = (st', flow) ->
  (dataset st' = dataset st /\ files st' = files st) \/
  exists ox oy px py r g b,
    admissible width ox /\ admissible height oy /\
    around (fdiv (fsub (asset_geometry (j_asset row)).1 ul.1) ps.1) = Some px /\
    around (fdiv (fsub (asset_geometry (j_asset row)).2 ul.2) ps.2) = Some py /\
    read_bands rs (crop_origin px width ox) (crop_origin py height oy)
      width height = Some (r, g, b) /\
    rows (dataset st') =
      rows (dataset st) ++
        [mkExampleRow (pretty (asset_id (j_asset row)))
           (width / 2 + ox - 15) (height / 2 + oy - 12)
           (width / 2 + ox + 15) (height / 2 + oy + 12)
           (img_polygon ul ps (crop_origin px width ox)
              (crop_origin py height oy) width height)] /\
    files st' !! png_path img_path (pretty (asset_id (j_asset row)))
      = Some (PngFile r g b) /\
    (forall k, k <> checkpoint_path img_path ->
               k <> png_path img_path (pretty (asset_id (j_asset row))) ->
               files st' !! k = files st !! k) /\
    (files st' !! checkpoint_path img_path
       = files st !! checkpoint_path img_path \/
     exists d, files st' !! checkpoint_path img_path = Some (GeoJsonFile d)).
Proof.
  unfold process_asset.
  destruct (draw_offset width _) as [ox|] eqn:Eox;
    [|intros [= <- <-]; by left].
  destruct (draw_offset height _) as [oy|] eqn:Eoy;
    [|intros [= <- <-]; by left].
  destruct (around _) as [px|] eqn:Epx; [|intros [= <- <-]; by left].
  destruct (around (fdiv (fsub _.2 _) _)) as [py|] eqn:Epy;
    [|intros [= <- <-]; by left].
  destruct (read_bands _ _ _ _ _) as [[[r g] b]|] eqn:Eread;
    [|intros [= <- <-]; by left].
  rewrite bbox_unfold. intros Hsave.
  apply save_results_effect in Hsave as (Hrows & Hother & Hckpt).
  right. exists ox, oy, px, py, r, g, b.
  split; [by eapply draw_offset_admissible|].
  split; [by eapply draw_offset_admissible|].
  split; [done|]. split; [done|]. split; [done|]. split; [done|].
  split; [|split].
  - rewrite Hother by apply png_is_not_checkpoint. apply lookup_insert_eq.
  - intros k Hk Hpng. rewrite Hother by done. by rewrite lookup_insert_ne.
  - destruct Hckpt as [->|?]; [left|by right].
    apply lookup_insert_ne, png_is_not_checkpoint.
Qed.

(** A property of the state that every pass of the loop body keeps is
    kept by the whole run.  [Q] is what is known of the rows the
    passes are given. *)
Section Keeps.

Variables (img_path : string) (m : option Z) (height width : Z)
  (entropy : nat -> Z).
Variable Q : JoinedRow (F:=F) -> Prop.
Variable P : State (F:=F) -> Prop.
Hypothesis step : forall ul ps rs row st st' flow,
  Q row -> P st ->
  process_asset ul ps rs img_path m height width entropy row st = (st', flow) ->
  P st'.

Lemma asset_loop_keeps ul ps rs rws st st' flow :
  Forall Q rws -> P st ->
  asset_loop ul ps rs img_path m height width entropy rws st = (st', flow) ->
  P st'.
Proof.
  intros Hrws. revert st. induction Hrws as [|row rws Hrow _ IH];
    intros st Hst; simpl.
  - by intros [= <- <-].
  - destruct (process_asset _ _ _ _ _ _ _ _ row st) as [st1 fl1] eqn:Estep.
    pose proof (step _ _ _ _ _ _ _ Hrow Hst Estep) as Hst1.
    destruct fl1; [by apply IH | by intros [= <- <-] ..].
Qed.

Lemma image_loop_keeps env joined images st st' flow :
  Forall Q joined -> P st ->
  image_loop env joined img_path m height width entropy images st = (st', flow) ->
  P st'.
Proof.
  intros Hjoined. revert st. induction images as [|image images IH];
    intros st Hst; simpl.
  - by intros [= <- <-].
  - destruct (gdal env image) as [rs|]; [|by intros [= <- <-]].
    destruct (geoTransform rs !! 0%nat); [|by intros [= <- <-]].
    destruct (geoTransform rs !! 3%nat); [|by intros [= <- <-]].
    destruct (geoTransform rs !! 1%nat); [|by intros [= <- <-]].
    destruct (geoTransform rs !! 5%nat); [|by intros [= <- <-]].
    destruct (asset_loop _ _ _ _ _ _ _ _ _ st) as [st1 fl1] eqn:Eloop.
    assert (P st1) as Hst1.
    { eapply asset_loop_keeps; [|exact Hst|exact Eloop].
      apply Forall_forall. intros r [_ Hr]%list_elem_of_filter.
      by eapply Forall_forall in Hjoined. }
    destruct fl1; [by apply IH | by intros [= <- <-] ..].
Qed.

End Keeps.

Lemma make_examples_keeps env assets coverage img_path m height width entropy fs0
    (Q : JoinedRow (F:=F) -> Prop) (P : State (F:=F) -> Prop) :
  (forall a c,
     resolve (read_assets env) assets = Some a ->
     resolve (read_coverage env) coverage = Some c ->
     Forall Q (sjoin (rows a) (rows c))) ->
  (forall ul ps rs row st st' flow,
     Q row -> P st ->
     process_asset ul ps rs (cwd env +:+ img_path) m height width entropy row st
       = (st', flow) -> P st') ->
  P (initial_state fs0) ->
  P (make_examples env assets coverage img_path m height width entropy fs0).1.
Proof.
  intros HQ Hstep Hinit. unfold make_examples.
  destruct (resolve _ assets) as [a|]; [|done].
  destruct (resolve _ coverage) as [c|]; [|done].
  destruct (image_loop _ _ _ _ _ _ _ _ _) as [st flow] eqn:Eloop. simpl.
  eapply image_loop_keeps; [exact Hstep | by apply HQ | exact Hinit | exact Eloop].
Qed.

Lemma elem_of_sjoin (assets : list (AssetRow (F:=F)))
    (coverage : list (CoverageRow (F:=F))) j :
  j ∈ sjoin assets coverage ->
  exists a c,
    a ∈ assets /\ c ∈ coverage /\
    intersects (asset_geometry a) (cov_geometry c) = true /\
    j = mkJoinedRow a (cov_filename c).
Proof.
  unfold sjoin. rewrite list_elem_of_In, in_flat_map.
  intros (a & Ha & Hj). apply list_elem_of_In in Ha, Hj.
  apply list_elem_of_fmap in Hj as (c & -> & Hc).
  apply list_elem_of_filter in Hc as [Hint Hc]. eauto 10.
Qed.

End ExtractorMore.

Lemma admissible_size (size o : Z) : admissible size o -> 17 <= size.
Proof. unfold admissible. intros Ho. Z.to_euclidean_division_equations. lia. Qed.

Lemma even_size_box (kw kh : Z) {F} (r : ExampleRow (F:=F)) :
  produced (2 * kw) (2 * kh) r ->
  8 <= ul_x r + 15 <= 2 * kw - 9 /\ 8 <= ul_y r + 12 <= 2 * kh - 9.
Proof.
  intros (ox & oy & Hox & Hoy & Hbox). rewrite bbox_unfold in Hbox.
  injection Hbox as E1 E2 E3 E4. unfold admissible in Hox, Hoy.
  revert Hox Hoy. Z.to_euclidean_division_equations. lia.
Qed.

Section ExtractorFacts.

Context {F : Type} `{Geo F}.
Implicit Types (st : State (F:=F)) (ds : GeoDataFrame (ExampleRow (F:=F)))
  (fs : gmap string (File (F:=F))) (flow : Flow (F:=F)).

Lemma save_results_no_cap img_path k ds fs n :
  rows ds <> [] -> k <= 0 ->
  save_results img_path (Some k) ds fs n = save_results img_path None ds fs n.
Proof.
  intros Hne Hk. unfold save_results.
  assert (0 < Z.of_nat (length (rows ds))) as Hpos.
  { destruct (rows ds); [done | simpl; lia]. }
  destruct (if Z.of_nat (length (rows ds)) mod 50 =? 0 then _ else _)
    as [[ds' fs']|]; [|done].
  rewrite !decide_False; [done | done |]. intros [= ->]. lia.
Qed.

Lemma process_asset_no_cap ul ps rs img_path k height width entropy row st :
  k <= 0 ->
  process_asset ul ps rs img_path (Some k) height width entropy row st =
  process_asset ul ps rs img_path None height width entropy row st.
Proof.
  intros Hk. unfold process_asset.
  destruct (draw_offset width _); [|done].
  destruct (draw_offset height _); [|done].
  destruct (around _); [|done]. destruct (around _); [|done].
  destruct (read_bands _ _ _ _ _) as [[[r g] b]|]; [|done].
  rewrite bbox_unfold. apply save_results_no_cap; [|done].
  simpl. by destruct (rows (dataset st)).
Qed.

Lemma asset_loop_no_cap ul ps rs img_path k height width entropy rws st :
  k <= 0 ->
  asset_loop ul ps rs img_path (Some k) height width entropy rws st =
  asset_loop ul ps rs img_path None height width entropy rws st.
Proof.
  intros Hk. revert st. induction rws as [|row rws IH]; intros st; simpl;
    [done|].
  rewrite process_asset_no_cap by done.
  destruct (process_asset _ _ _ _ _ _ _ _ row st) as [st1 [| |]]; auto.
Qed.

Lemma image_loop_no_cap env joined img_path k height width entropy images st :
  k <= 0 ->
  image_loop env joined img_path (Some k) height width entropy images st =
  image_loop env joined img_path None height width entropy images st.
Proof.
  intros Hk. revert st. induction images as [|image images IH]; intros st;
    simpl; [done|].
  destruct (gdal env image) as [rs|]; [|done].
  destruct (geoTransform rs !! 0%nat); [|done].
  destruct (geoTransform rs !! 3%nat); [|done].
  destruct (geoTransform rs !! 1%nat); [|done].
  destruct (geoTransform rs !! 5%nat); [|done].
  rewrite asset_loop_no_cap by done.
  destruct (asset_loop _ _ _ _ _ _ _ _ _ st) as [st1 [| |]]; auto.
Qed.

(** X5.  A cap of zero (or a negative one) is no cap: the length is
    compared with [max_length] only after an append, so the run goes
    through all its input exactly as with [max_length=None]. *)
Theorem cap_of_zero_is_no_cap env assets coverage img_path k height width
    entropy fs0 :
  k <= 0 ->
  make_examples env assets coverage img_path (Some k) height width entropy fs0 =
  make_examples env assets coverage img_path None height width entropy fs0.
Proof.
  intros Hk. unfold make_examples.
  destruct (resolve _ assets) as [a|]; [|done].
  destruct (resolve _ coverage) as [c|]; [|done].
  by rewrite image_loop_no_cap.
Qed.

(** X6.  Without assets the run changes nothing: no file is written
    and the dataset stays empty, whatever the tiles are. *)
Theorem no_assets_nothing_done env assets coverage img_path m height width
    entropy fs0 a :
  resolve (read_assets env) assets = Some a ->
  rows a = [] ->
  (make_examples env assets coverage img_path m height width entropy fs0).1
    = initial_state fs0.
Proof.
  intros Hres Hnil.
  apply (make_examples_keeps env assets coverage img_path m height width
           entropy fs0 (fun _ => False) (fun st => st = initial_state fs0)).
  - intros a' c Ha' _. rewrite Hres in Ha'. injection Ha' as <-.
    rewrite Hnil. constructor.
  - by intros.
  - done.
Qed.

(** X7.  With a width or a height of 16 or less no offset can be
    drawn, so the run never produces a record and never writes a
    file. *)
Theorem small_crop_produces_nothing env assets coverage img_path m height width
    entropy fs0 :
  width <= 16 \/ height <= 16 ->
  rows (dataset
    (make_examples env assets coverage img_path m height width entropy fs0).1)
    = [] /\
  files (make_examples env assets coverage img_path m height width entropy fs0).1
    = fs0.
Proof.
  intros Hsmall.
  apply (make_examples_keeps env assets coverage img_path m height width
           entropy fs0 (fun _ => True)
           (fun st => rows (dataset st) = [] /\ files st = fs0)).
  - intros. by apply Forall_forall.
  - intros ul ps rs row st st' flow _ [Hrows Hfiles] Hstep.
    apply process_asset_effect in Hstep
      as [[-> ->]|(ox & oy & _ & _ & _ & _ & _ & Hox & Hoy & _)]; [done|].
    apply admissible_size in Hox, Hoy. lia.
  - done.
Qed.

(** X8.  The run writes nowhere but to the checkpoint file and to
    [.png] files of the output directory, and it removes no file. *)
Theorem writes_only_png_and_checkpoint env assets coverage img_path m height
    width entropy fs0 (k : string) :
  let st := (make_examples env assets coverage img_path m height width
               entropy fs0).1 in
  (k = checkpoint_path (cwd env +:+ img_path) \/
   (exists name, k = png_path (cwd env +:+ img_path) name) \/
   files st !! k = fs0 !! k) /\
  (fs0 !! k = None \/ exists f, files st !! k = Some f).
Proof.
  simpl.
  apply (make_examples_keeps env assets coverage img_path m height width
           entropy fs0 (fun _ => True)
           (fun st =>
              (k = checkpoint_path (cwd env +:+ img_path) \/
               (exists name, k = png_path (cwd env +:+ img_path) name) \/
               files st !! k = fs0 !! k) /\
              (fs0 !! k = None \/ exists f, files st !! k = Some f))).
  - intros. by apply Forall_forall.
  - intros ul ps rs row st st' flow _ [Hsame Hkept] Hstep.
    apply process_asset_effect in Hstep
      as [[_ ->]|(ox & oy & px & py & r & g & b & _ & _ & _ & _ & _ & _ &
                  Hpng & Hother & Hckpt)]; [done|].
    destruct (decide (k = checkpoint_path (cwd env +:+ img_path))) as [->|Hk].
    { split; [by left|]. destruct Hckpt as [->|[d ->]]; eauto. }
    destruct (decide (k = png_path (cwd env +:+ img_path)
                            (pretty (asset_id (j_asset row))))) as [->|Hk'].
    { split; [right; left; eauto|]. rewrite Hpng. eauto. }
    rewrite (Hother k) by done. done.
  - simpl. split; [by right; right|]. destruct (fs0 !! k); eauto.
Qed.

(** X9.  Every record of the dataset has its image: the file
    [<img_path><filename>.png] exists when the run ends. *)
Theorem every_record_has_its_image env assets coverage img_path m height width
    entropy fs0 :
  let st := (make_examples env assets coverage img_path m height width
               entropy fs0).1 in
  Forall (fun rec =>
            exists r g b,
              files st !! png_path (cwd env +:+ img_path) (filename rec)
                = Some (PngFile r g b))
    (rows (dataset st)).
Proof.
  simpl.
  apply (make_examples_keeps env assets coverage img_path m height width
           entropy fs0 (fun _ => True)
           (fun st =>
              Forall (fun rec =>
                        exists r g b,
                          files st !! png_path (cwd env +:+ img_path) (filename rec)
                            = Some (PngFile r g b))
                (rows (dataset st)))).
  - intros. by apply Forall_forall.
  - intros ul ps rs row st st' flow _ Hst Hstep.
    apply process_asset_effect in Hstep
      as [[-> ->]|(ox & oy & px & py & r & g & b & _ & _ & _ & _ & _ & -> &
                   Hpng & Hother & _)]; [done|].
    apply Forall_app. split.
    + eapply Forall_impl; [exact Hst|]. intros rec (r' & g' & b' & Hrec).
      destruct (decide (png_path (cwd env +:+ img_path) (filename rec) =
                        png_path (cwd env +:+ img_path)
                          (pretty (asset_id (j_asset row))))) as [E|Hne].
      * rewrite E, Hpng. eauto.
      * rewrite Hother; [eauto | apply png_is_not_checkpoint | done].
    + constructor; [|done]. simpl. eauto.
  - constructor.
Qed.

(** X10.  Every record comes from an asset that intersects a tile of
    the coverage, and is named after the id of that asset: assets
    outside all tiles give no example. *)
Theorem every_record_comes_from_a_matched_asset env assets coverage img_path m
    height width entropy fs0 a c :
  resolve (read_assets env) assets = Some a ->
  resolve (read_coverage env) coverage = Some c ->
  Forall (fun rec =>
            exists asset tile,
              asset ∈ rows a /\ tile ∈ rows c /\
              intersects (asset_geometry asset) (cov_geometry tile) = true /\
              filename rec = pretty (asset_id asset))
    (rows (dataset
       (make_examples env assets coverage img_path m height width entropy fs0).1)).
Proof.
  intros Ha Hc.
  apply (make_examples_keeps env assets coverage img_path m height width
           entropy fs0
           (fun j => exists asset tile,
                       asset ∈ rows a /\ tile ∈ rows c /\
                       intersects (asset_geometry asset) (cov_geometry tile) = true /\
                       j = mkJoinedRow asset (cov_filename tile))
           (fun st =>
              Forall (fun rec =>
                        exists asset tile,
                          asset ∈ rows a /\ tile ∈ rows c /\
                          intersects (asset_geometry asset) (cov_geometry tile) = true /\
                          filename rec = pretty (asset_id asset))
                (rows (dataset st)))).
  - intros a' c' Ha' Hc'. rewrite Ha in Ha'. rewrite Hc in Hc'.
    injection Ha' as <-. injection Hc' as <-.
    apply Forall_forall. intros j Hj. by apply elem_of_sjoin.
  - intros ul ps rs row st st' flow (asset & tile & Hasset & Htile & Hint & ->)
      Hst Hstep.
    apply process_asset_effect in Hstep
      as [[-> _]|(ox & oy & px & py & r & g & b & _ & _ & _ & _ & _ & -> & _)];
      [done|].
    apply Forall_app. split; [done|]. constructor; [|done]. simpl. eauto 10.
  - constructor.
Qed.

(** X11.  When a pass of the loop body appends a record, the image
    it saves under the record's name is the [width] x [height] window
    of the tile in which the asset's pixel is the middle of the
    record's box, [(ul_x + 15, ul_y + 12)]; the box goes 15 pixels to
    each side of it and 12 pixels up and down. *)
Theorem saved_crop_is_window_around_asset ul ps rs img_path m height width
    entropy row st st' flow :
  process_asset ul ps rs img_path m height width entropy row st = (st', flow) ->
  rows (dataset st') <> rows (dataset st) ->
  exists px py rec r g b,
    around (fdiv (fsub (asset_geometry (j_asset row)).1 ul.1) ps.1) = Some px /\
    around (fdiv (fsub (asset_geometry (j_asset row)).2 ul.2) ps.2) = Some py /\
    rows (dataset st') = rows (dataset st) ++ [rec] /\
    filename rec = pretty (asset_id (j_asset row)) /\
    lr_x rec = ul_x rec + 30 /\ lr_y rec = ul_y rec + 24 /\
    read_bands rs (px - (ul_x rec + 15)) (py - (ul_y rec + 12)) width height
      = Some (r, g, b) /\
    files st' !! png_path img_path (filename rec) = Some (PngFile r g b).
Proof.
  intros Hstep Hnew.
  apply process_asset_effect in Hstep
    as [[E _]|(ox & oy & px & py & r & g & b & _ & _ & Hpx & Hpy & Hread &
               Hrows & Hpng & _)]; [by rewrite E in Hnew|].
  eexists px, py, _, r, g, b. split; [done|]. split; [done|].
  split; [exact Hrows|]. simpl. split; [done|].
  split; [lia|]. split; [lia|]. split; [|done].
  rewrite <- Hread. unfold crop_origin. f_equal; lia.
Qed.

(** X12.  For an even width and an even height every record keeps
    the margin: the middle of its box, where the asset is, lies
    between column 8 and column [width - 9] and between row 8 and row
    [height - 9] of the crop. *)
Theorem even_sizes_keep_the_margin env assets coverage img_path m kh kw
    entropy fs0 :
  Forall (fun rec =>
            8 <= ul_x rec + 15 <= 2 * kw - 9 /\
            8 <= ul_y rec + 12 <= 2 * kh - 9)
    (rows (dataset
       (make_examples env assets coverage img_path m (2 * kh) (2 * kw)
          entropy fs0).1)).
Proof.
  destruct (make_examples_inv env assets coverage img_path m (2 * kh) (2 * kw)
              entropy fs0) as (flow & _ & [Hrows _ _ _]).
  eapply Forall_impl; [exact Hrows|]. intros rec. apply even_size_box.
Qed.

(** X13.  A box never leaves the crop by more than 8 pixels to the
    left, 6 to the right, 5 at the top and 3 at the bottom. *)
Theorem box_overshoot_is_bounded env assets coverage img_path m height width
    entropy fs0 :
  Forall (fun rec =>
            - 8 <= ul_x rec /\ lr_x rec <= width + 6 /\
            - 5 <= ul_y rec /\ lr_y rec <= height + 3)
    (rows (dataset
       (make_examples env assets coverage img_path m height width
          entropy fs0).1)).
Proof.
  destruct (make_examples_inv env assets coverage img_path m height width
              entropy fs0) as (flow & _ & [Hrows _ _ _]).
  eapply Forall_impl; [exact Hrows|].
  intros rec (ox & oy & Hox & Hoy & Hbox). rewrite bbox_unfold in Hbox.
  injection Hbox as E1 E2 E3 E4. unfold admissible in Hox, Hoy.
  revert Hox Hoy. Z.to_euclidean_division_equations. lia.
Qed.

(** X14.  The script run as a program: when the indexer raises,
    nothing is extracted; otherwise the dataset never has more than
    500 records, and with the crop of 512 x 512 every record keeps
    the margin of 8 pixels. *)
Theorem main_run_bounds env entropy fs0 :
  let run := main env entropy fs0 in
  (run.1 = None -> run.2 = (initial_state fs0, Raised)) /\
  (length (rows (dataset run.2.1)) <= 500)%nat /\
  Forall (fun rec =>
            8 <= ul_x rec + 15 <= 503 /\ 8 <= ul_y rec + 12 <= 503)
    (rows (dataset run.2.1)).
Proof.
  unfold main. destruct (make_polygon_list env "./" None) as [coverage|];
    simpl; [|by repeat split; [lia | constructor]].
  split; [done|].
  destruct (make_examples_inv env (Path "sierra-leone_raw_towers.geojson")
              (Frame coverage) "/../examples/" (Some 500) 512 512 entropy fs0)
    as (flow & _ & [Hrows _ _ Hflow]).
  split.
  - destruct flow as [|v|]; simpl in Hflow.
    + destruct Hflow as [Hcap _]. specialize (Hcap 500 eq_refl). lia.
    + destruct Hflow as (_ & _ & [= Hcap] & _). lia.
    + destruct Hflow as [Hcap _]. specialize (Hcap 500 eq_refl). lia.
  - eapply Forall_impl; [exact Hrows|]. intros rec Hrec.
    apply (even_size_box 256 256) in Hrec. lia.
Qed.

End ExtractorFacts.

Section ExtractorCount.

Context {F : Type} `{Geo F}.

Lemma filter_disjoint_length {A} (P1 P2 P3 : A -> Prop)
    `{!forall x, Decision (P1 x)} `{!forall x, Decision (P2 x)}
    `{!forall x, Decision (P3 x)} (l : list A) :
  (forall x, P1 x -> P2 x -> False) ->
  (forall x, P1 x \/ P2 x -> P3 x) ->
  (length (filter P1 l) + length (filter P2 l) <= length (filter P3 l))%nat.
Proof.
  intros Hdis Hsub. induction l as [|x l IH]; [done|].
  rewrite !filter_cons.
  destruct (decide (P1 x)) as [Hx1|Hx1], (decide (P2 x)) as [Hx2|Hx2];
    destruct (decide (P3 x)) as [Hx3|Hx3]; simpl; try lia;
    exfalso; eauto.
Qed.

Lemma asset_loop_length ul ps rs img_path m height width entropy rws
    (st st' : State (F:=F)) flow :
  asset_loop ul ps rs img_path m height width entropy rws st = (st', flow) ->
  (length (rows (dataset st')) <= length (rows (dataset st)) + length rws)%nat.
Proof.
  revert st. induction rws as [|row rws IH]; intros st; simpl.
  - intros [= <- <-]. lia.
  - destruct (process_asset _ _ _ _ _ _ _ _ row st) as [st1 fl1] eqn:Estep.
    assert (length (rows (dataset st1)) <= S (length (rows (dataset st))))%nat
      as Hone.
    { apply process_asset_effect in Estep
        as [[-> _]|(ox & oy & px & py & r & g & b & _ & _ & _ & _ & _ & -> & _)];
        [lia|]. rewrite length_app. simpl. lia. }
    destruct fl1; [|intros [= <- <-]; lia ..].
    intros Hrest. apply IH in Hrest. lia.
Qed.

Lemma image_loop_length env joined img_path m height width entropy images
    (st st' : State (F:=F)) flow :
  NoDup images ->
  image_loop env joined img_path m height width entropy images st = (st', flow) ->
  (length (rows (dataset st')) <=
     length (rows (dataset st)) +
     length (filter (fun r => j_filename r ∈ images) joined))%nat.
Proof.
  intros Hnd. revert st. induction Hnd as [|image images Hnot Hnd IH];
    intros st; simpl.
  - intros [= <- <-]. lia.
  - destruct (gdal env image) as [rs|]; [|intros [= <- <-]; lia].
    destruct (geoTransform rs !! 0%nat); [|intros [= <- <-]; lia].
    destruct (geoTransform rs !! 3%nat); [|intros [= <- <-]; lia].
    destruct (geoTransform rs !! 1%nat); [|intros [= <- <-]; lia].
    destruct (geoTransform rs !! 5%nat); [|intros [= <- <-]; lia].
    destruct (asset_loop _ _ _ _ _ _ _ _ _ st) as [st1 fl1] eqn:Eloop.
    apply asset_loop_length in Eloop.
    pose proof (filter_disjoint_length
                  (fun r => j_filename r = image)
                  (fun r => j_filename r ∈ images)
                  (fun r => j_filename r ∈ image :: images) joined) as Hsplit.
    assert (length (filter (fun r => j_filename r = image) joined) +
            length (filter (fun r => j_filename r ∈ images) joined) <=
            length (filter (fun r => j_filename r ∈ image :: images) joined))%nat
      as Hsum.
    { apply Hsplit.
      - intros r E Hin. apply Hnot. by rewrite <- E.
      - intros r [E|Hin]; [rewrite E; left | by right]. }
    destruct fl1; [|intros [= <- <-]; lia ..].
    intros Hrest. apply IH in Hrest. lia.
Qed.

(** X15.  When no file name is repeated in the coverage, the run
    produces at most one record per pair of an asset and a tile that
    intersect. *)
Theorem at_most_one_record_per_match env assets coverage img_path m height
    width entropy fs0 a c :
  resolve (read_assets env) assets = Some a ->
  resolve (read_coverage env) coverage = Some c ->
  NoDup (map cov_filename (rows c)) ->
  (length (rows (dataset
     (make_examples env assets coverage img_path m height width entropy fs0).1))
   <= length (sjoin (rows a) (rows c)))%nat.
Proof.
  intros Ha Hc Hnd. unfold make_examples. rewrite Ha, Hc.
  destruct (image_loop _ _ _ _ _ _ _ _ _) as [st flow] eqn:Eloop. simpl.
  apply image_loop_length in Eloop; [|done]. simpl in Eloop.
  etrans; [exact Eloop|]. apply length_filter.
Qed.

End ExtractorCount.

(** ** More runs on the concrete world *)

Lemma cap_of_zero_is_no_cap_witness :
  make_examples one_tile_env (Frame (mkFrame (assets_inside 3 0) None))
    (Frame one_tile_coverage) "/ex/" (Some 0) 20 20 (entropy_of []) ∅ =
  make_examples one_tile_env (Frame (mkFrame (assets_inside 3 0) None))
    (Frame one_tile_coverage) "/ex/" None 20 20 (entropy_of []) ∅.
Proof.
  apply (cap_of_zero_is_no_cap one_tile_env
           (Frame (mkFrame (assets_inside 3 0) None))
           (Frame one_tile_coverage) "/ex/" 0 20 20 (entropy_of []) ∅).
  lia.
Defined.

(** With a cap of zero the three assets all give a record. *)
Example cap_of_zero_three_records :
  length (rows (dataset
    (make_examples one_tile_env (Frame (mkFrame (assets_inside 3 0) None))
       (Frame one_tile_coverage) "/ex/" (Some 0) 20 20 (entropy_of []) ∅).1))
  = 3%nat.
Proof. vm_compute. reflexivity. Qed.

Lemma no_assets_nothing_done_witness :
  (make_examples one_tile_env (Frame (mkFrame [] (Some 4326)))
     (Frame one_tile_coverage) "/ex/" (Some 5) 20 20 (entropy_of []) ∅).1
  = initial_state ∅.
Proof.
  apply (no_assets_nothing_done one_tile_env (Frame (mkFrame [] (Some 4326)))
           (Frame one_tile_coverage) "/ex/" (Some 5) 20 20 (entropy_of []) ∅
           (mkFrame [] (Some 4326))).
  - reflexivity.
  - reflexivity.
Defined.

Lemma small_crop_produces_nothing_witness :
  rows (dataset
    (make_examples one_tile_env (Frame (mkFrame (assets_inside 3 0) None))
       (Frame one_tile_coverage) "/ex/" None 20 16 (entropy_of []) ∅).1)
    = [] /\
  files (make_examples one_tile_env (Frame (mkFrame (assets_inside 3 0) None))
           (Frame one_tile_coverage) "/ex/" None 20 16 (entropy_of []) ∅).1
    = ∅.
Proof.
  apply (small_crop_produces_nothing one_tile_env
           (Frame (mkFrame (assets_inside 3 0) None))
           (Frame one_tile_coverage) "/ex/" None 20 16 (entropy_of []) ∅).
  left. lia.
Defined.

Lemma every_record_comes_from_a_matched_asset_witness :
  Forall (fun rec =>
            exists asset tile,
              asset ∈ [asset_at 7 5000 (-500); asset_at 8 500 (-500)] /\
              tile ∈ rows one_tile_coverage /\
              intersects (asset_geometry asset) (cov_geometry tile) = true /\
              filename rec = pretty (asset_id asset))
    (rows (dataset
       (make_examples one_tile_env
          (Frame (mkFrame [asset_at 7 5000 (-500); asset_at 8 500 (-500)] None))
          (Frame one_tile_coverage) "/ex/" None 20 20 (entropy_of []) ∅).1)).
Proof.
  apply (every_record_comes_from_a_matched_asset one_tile_env
           (Frame (mkFrame [asset_at 7 5000 (-500); asset_at 8 500 (-500)] None))
           (Frame one_tile_coverage) "/ex/" None 20 20 (entropy_of []) ∅
           (mkFrame [asset_at 7 5000 (-500); asset_at 8 500 (-500)] None)
           one_tile_coverage).
  - reflexivity.
  - reflexivity.
Defined.

(** The asset outside the tile gives no record, the one inside does. *)
Example asset_outside_all_tiles_is_dropped :
  map filename (rows (dataset
    (make_examples one_tile_env
       (Frame (mkFrame [asset_at 7 5000 (-500); asset_at 8 500 (-500)] None))
       (Frame one_tile_coverage) "/ex/" None 20 20 (entropy_of []) ∅).1))
  = ["8"].
Proof. vm_compute. reflexivity. Qed.

Lemma saved_crop_is_window_around_asset_witness :
  let row := mkJoinedRow (asset_at 8 500 (-500)) "tile.tif" in
  let st0 := initial_state (F:=Q) ∅ in
  let res := process_asset (0%Q, 0%Q) (1%Q, Qopp 1%Q) (square_tile 1000)
               "/work/ex/" None 20 20 (entropy_of [3; 0]) row st0 in
  exists px py rec r g b,
    around (fdiv (fsub (asset_geometry (j_asset row)).1 0%Q) 1%Q) = Some px /\
    around (fdiv (fsub (asset_geometry (j_asset row)).2 0%Q) (Qopp 1%Q))
      = Some py /\
    rows (dataset res.1) = rows (dataset st0) ++ [rec] /\
    filename rec = pretty (asset_id (j_asset row)) /\
    lr_x rec = ul_x rec + 30 /\ lr_y rec = ul_y rec + 24 /\
    read_bands (square_tile 1000) (px - (ul_x rec + 15)) (py - (ul_y rec + 12))
      20 20 = Some (r, g, b) /\
    files res.1 !! png_path "/work/ex/" (filename rec) = Some (PngFile r g b).
Proof.
  apply (saved_crop_is_window_around_asset (0%Q, 0%Q) (1%Q, Qopp 1%Q)
           (square_tile 1000) "/work/ex/" None 20 20 (entropy_of [3; 0])
           (mkJoinedRow (asset_at 8 500 (-500)) "tile.tif") (initial_state ∅)
           _ Next).
  - vm_compute. reflexivity.
  - vm_compute. discriminate.
Defined.

Lemma at_most_one_record_per_match_witness :
  (length (rows (dataset
     (make_examples one_tile_env
        (Frame (mkFrame (assets_inside 3 0) None))
        (Frame one_tile_coverage) "/ex/" None 20 20 (entropy_of []) ∅).1))
   <= length (sjoin (assets_inside 3 0) (rows one_tile_coverage)))%nat.
Proof.
  apply (at_most_one_record_per_match one_tile_env
           (Frame (mkFrame (assets_inside 3 0) None))
           (Frame one_tile_coverage) "/ex/" None 20 20 (entropy_of []) ∅
           (mkFrame (assets_inside 3 0) None) one_tile_coverage).
  - reflexivity.
  - reflexivity.
  - repeat constructor. intros Hin. by apply elem_of_nil in Hin.
Defined.

(** The script on a directory with two tiles of the same area and one
    asset in both: two records of the same name, one image. *)
Example main_asset_in_two_tiles :
  let run := main two_tile_env (entropy_of [248; 248; 248; 248]) ∅ in
  option_map (fun idx => map cov_filename (rows idx)) run.1
    = Some ["./a.tif"; "./b.tif"] /\
  map filename (rows (dataset run.2.1)) = ["7"; "7"] /\
  map fst (map_to_list (files run.2.1)) = ["/work/../examples/7.png"] /\
  run.2.2 = Returned PyNone.
Proof. vm_compute. repeat split; reflexivity. Qed.
